(** * ServerForge: a shallow embedding of the installation engine

    The development follows the Python sources of [svforge]:
    - [utils/system.py]: [SecurePathValidator] and [PathManager];
    - [utils/base_api.py], [utils/api.py]: the HTTP clients, the response
      cache, the resolvers and the streaming download;
    - [servers/*.py]: the server variants, the version check and the
      installation pipeline.

    Python values that can raise are embedded in the error monad [res];
    code that touches the filesystem or the network threads that state
    explicitly. *)

From stdpp Require Import base strings list gmap pretty.
From Stdlib Require Import ZArith Lia Ascii Sorted.
From Stdlib.Init Require Import Byte.

Local Open Scope string_scope.
Local Open Scope list_scope.
Local Open Scope Z_scope.
Set Warnings "-register-all".

(** ** Python exceptions and the error monad *)

Module Py.

(** The exception classes that the modelled code raises or catches.  All
    of them derive from [Exception]; the [ServerForgeError] family is the
    hierarchy of [exceptions.py]. *)
Inductive exn_class : Type :=
  | Exception             (* the root: names no raised exception, only clauses *)
  | AttributeError | KeyError | TypeError | ValueError | OSError | RuntimeError
  | RequestException      (* requests.RequestException, HTTPError included *)
  | HttpxRequestError     (* httpx.RequestError *)
  | HttpxStatusError      (* httpx.HTTPStatusError *)
  | ServerForgeError | ValidationError | PathValidationError
  | UnsupportedVersionError | ServerInstallationError | DownloadError
  | APIError | SystemError | JavaError | ConfigurationError.

Global Instance exn_class_eq_dec : EqDecision exn_class.
Proof. solve_decision. Defined.

Record exn : Type := mk_exn { exn_cls : exn_class; exn_msg : string }.

Global Instance exn_eq_dec : EqDecision exn.
Proof. solve_decision. Defined.

(** Direct base class inside the modelled hierarchy ([None] stands for
    [Exception] itself). *)
Definition base_class (c : exn_class) : option exn_class :=
  match c with
  | ValidationError | ServerInstallationError | DownloadError
  | SystemError | APIError | ConfigurationError => Some ServerForgeError
  | PathValidationError | UnsupportedVersionError => Some ValidationError
  | JavaError => Some SystemError
  | _ => None
  end.

(** [isinstance(e, d)]: the hierarchy is three levels deep. *)
Definition is_subclass (c d : exn_class) : bool :=
  bool_decide (d = Exception)
  || bool_decide (c = d)
  || bool_decide (base_class c = Some d)
  || bool_decide (base_class c ≫= base_class = Some d).

Inductive res (A : Type) : Type :=
  | Ok (a : A)
  | Raise (e : exn).
Global Arguments Ok {A} a.
Global Arguments Raise {A} e.

Global Instance res_ret : MRet res := λ A a, Ok a.
Global Instance res_bind : MBind res := λ A B k m,
  match m with Ok a => k a | Raise e => Raise e end.

Definition raise {A} (c : exn_class) (msg : string) : res A :=
  Raise (mk_exn c msg).

(** [except (c1, ..., cn)]: does the clause catch [e]? *)
Definition catches (classes : list exn_class) (e : exn) : bool :=
  existsb (is_subclass (exn_cls e)) classes.
Global Arguments catches : simpl never.

(** [try: body  except (c1, ..., cn) as e: handler]. *)
Definition try_except {A} (body : res A) (classes : list exn_class)
    (handler : exn → res A) : res A :=
  match body with
  | Ok a => Ok a
  | Raise e => if catches classes e then handler e else Raise e
  end.

(** [str(e)]: [ServerForgeError.__str__] returns the message when no
    cause was given (no call site of the modelled code passes one); the
    builtin exceptions print their message as well. *)
Definition str_exn (e : exn) : string := exn_msg e.

(** Code with effects: a computation over a state [S] that returns a
    value or raises.  Whatever was done to the state before an exception
    is raised stays done. *)
Definition M (S A : Type) : Type := S → res A * S.

Global Instance M_ret {S} : MRet (M S) := λ A a s, (Ok a, s).
Global Instance M_bind {S} : MBind (M S) := λ A B k m s,
  match m s with
  | (Ok a, s') => k a s'
  | (Raise e, s') => (Raise e, s')
  end.

Definition throw {S A} (c : exn_class) (msg : string) : M S A :=
  λ s, (raise c msg, s).

Definition lift_res {S A} (r : res A) : M S A := λ s, (r, s).

Definition get_state {S} : M S S := λ s, (Ok s, s).
Definition put_state {S} (s : S) : M S () := λ _, (Ok (), s).
Definition modify_state {S} (f : S → S) : M S () := λ s, (Ok (), f s).

(** [try: body  except (c1, ..., cn) as e: handler] for effectful code. *)
Definition try_catch {S A} (body : M S A) (classes : list exn_class)
    (handler : exn → M S A) : M S A := λ s,
  match body s with
  | (Ok a, s') => (Ok a, s')
  | (Raise e, s') => if catches classes e then handler e s' else (Raise e, s')
  end.

(** [except Exception as e]: every modelled class derives from
    [Exception]. *)
Definition try_catch_all {S A} (body : M S A) (handler : exn → M S A)
    : M S A := λ s,
  match body s with
  | (Ok a, s') => (Ok a, s')
  | (Raise e, s') => handler e s'
  end.

End Py.
Export Py.


(** ** Strings as Python uses them here *)

Module PyStr.

Definition in_range (lo hi c : ascii) : bool :=
  (nat_of_ascii lo <=? nat_of_ascii c)%nat && (nat_of_ascii c <=? nat_of_ascii hi)%nat.

Definition is_lower (c : ascii) : bool := in_range "a" "z" c.
Definition is_upper (c : ascii) : bool := in_range "A" "Z" c.
Definition is_digit (c : ascii) : bool := in_range "0" "9" c.
Definition is_alnum (c : ascii) : bool := is_lower c || is_upper c || is_digit c.

Definition chars (s : string) : list ascii := String.list_ascii_of_string s.
Definition of_chars (l : list ascii) : string := String.string_of_list_ascii l.

(** [s.upper()] on ASCII text. *)
Definition upper_char (c : ascii) : ascii :=
  if is_lower c then ascii_of_nat (nat_of_ascii c - 32) else c.
Definition upper (s : string) : string := of_chars (map upper_char (chars s)).

(** [s.startswith(t)]. *)
Definition startswith (s t : string) : bool := String.prefix t s.

Definition newline : ascii := ascii_of_nat 10.

(** The whitespace that [str.strip()] removes, within ASCII: space, tab,
    line feed, vertical tab, form feed, carriage return and the four
    separators 0x1c to 0x1f. *)
Definition is_space (c : ascii) : bool :=
  let n := nat_of_ascii c in
  (n =? 32)%nat || ((9 <=? n) && (n <=? 13))%nat || ((28 <=? n) && (n <=? 31))%nat.

Fixpoint lstrip_chars (l : list ascii) : list ascii :=
  match l with
  | c :: l' => if is_space c then lstrip_chars l' else l
  | [] => []
  end.

(** [s.strip()]. *)
Definition strip (s : string) : string :=
  of_chars (rev (lstrip_chars (rev (lstrip_chars (chars s))))).

(** [s.lower()] on ASCII text. *)
Definition lower_char (c : ascii) : ascii :=
  if is_upper c then ascii_of_nat (nat_of_ascii c + 32) else c.
Definition lower (s : string) : string := of_chars (map lower_char (chars s)).

(** [needle in hay] for two strings. *)
Definition contains_str (needle hay : string) : bool :=
  existsb
    (λ i, bool_decide (String.substring i (String.length needle) hay = needle))
    (seq 0 (S (String.length hay))).

End PyStr.

(** ** [utils/system.py]: path validation and directory allocation *)

Module Paths.

(** A [Path] is kept absolute: the list of its components below the root.
    [p / name] appends one component. *)
Abbreviation path := (list string).

(** [str(p)]: every component behind a slash; the root alone is ["/"]. *)
Definition render (p : path) : string := foldr (λ c acc, "/" +:+ c +:+ acc) "" p.

Definition str_path (p : path) : string :=
  match p with
  | [] => "/"
  | _ => render p
  end.

Definition path_join (p : path) (name : string) : path := p ++ [name].

(** [q] lies inside [root]: [root] itself or one of its descendants. *)
Definition within (root q : path) : Prop := root `prefix_of` q.

(** The permission bits [0o755] and [0o777]. *)
Definition o755 : Z := 493.
Definition o777 : Z := 511.

(** What the filesystem holds at a path.  A directory remembers the mode
    it was created with. *)
Inductive node : Type :=
  | Directory (mode : Z)
  | RegularFile.

Global Instance node_eq_dec : EqDecision node.
Proof. solve_decision. Defined.

Abbreviation fs := (gmap path node).

(** The part of the host that the allocator reads but never changes: the
    home directory and [Path.resolve()], that is the canonical path after
    following symbolic links (it raises [OSError] or [RuntimeError] when
    the operating system refuses). *)
Record host : Type := mk_host {
  home : path;
  resolve : path → res path;
}.

(** The root directory always exists. *)
Definition node_at (f : fs) (p : path) : option node :=
  match p with [] => Some (Directory o755) | _ => f !! p end.

Definition exists_ (f : fs) (p : path) : bool :=
  bool_decide (is_Some (node_at f p)).

Definition is_dir (f : fs) (p : path) : bool :=
  match node_at f p with Some (Directory _) => true | _ => false end.

Definition child_of (p k : path) : Prop :=
  p `prefix_of` k ∧ length k = S (length p).

Global Instance child_of_dec p k : Decision (child_of p k).
Proof. unfold child_of. apply _. Defined.

(** [any(p.iterdir())]: the directory has at least one entry. *)
Definition has_entries (f : fs) (p : path) : bool :=
  bool_decide (map_Exists (λ k _, child_of p k) f).

(** [Path.mkdir(mode, parents=True, exist_ok=True)]: missing ancestors are
    created with the default mode [0o777], the directory itself with
    [mode]; an existing directory is left alone; a regular file in the way
    is an [OSError].  [pre] is the prefix already walked. *)
Fixpoint mkdir_walk (mode : Z) (pre : path) (rest : list string) : M fs () :=
  match rest with
  | [] => mret ()
  | c :: rest' =>
      let p := path_join pre c in
      f ← get_state;
      match node_at f p with
      | Some (Directory _) => mkdir_walk mode p rest'
      | Some RegularFile =>
          throw OSError
            (match rest' with [] => "File exists" | _ => "Not a directory" end)
      | None =>
          _ ← modify_state
                (insert p (Directory (match rest' with [] => mode | _ => o777 end)));
          mkdir_walk mode p rest'
      end
  end.

Definition mkdir_parents (mode : Z) (p : path) : M fs () := mkdir_walk mode [] p.

(** *** [SecurePathValidator] *)

Definition RESERVED_NAMES : list string :=
  [ "CON"; "PRN"; "AUX"; "NUL"; "COM1"; "COM2"; "COM3"; "COM4"; "COM5";
    "COM6"; "COM7"; "COM8"; "COM9"; "LPT1"; "LPT2"; "LPT3"; "LPT4";
    "LPT5"; "LPT6"; "LPT7"; "LPT8"; "LPT9" ].

(** The character class [[a-zA-Z0-9._-]]. *)
Definition name_char (c : ascii) : bool :=
  PyStr.is_alnum c || bool_decide (c = "."%char) || bool_decide (c = "_"%char)
  || bool_decide (c = "-"%char).

(** [re.match(r'^[a-zA-Z0-9._-]+$', name)]: one or more characters of the
    class up to the end of the string; Python's [$] also matches just
    before a final line feed. *)
Definition match_name_pattern (name : string) : bool :=
  let cs := PyStr.chars name in
  let body :=
    match last cs with
    | Some c => if bool_decide (c = PyStr.newline) then removelast cs else cs
    | None => cs
    end in
  negb (bool_decide (body = [])) && forallb name_char body.

Definition validate_server_name (name : string) : bool :=
  if bool_decide (name = "") then false
  else if negb (match_name_pattern name) then false
  else if PyStr.startswith name "." || bool_decide (name = ".")
          || bool_decide (name = "..") then false
  else if bool_decide (PyStr.upper name ∈ RESERVED_NAMES) then false
  else if bool_decide (100 < Z.of_nat (String.length name)) then false
  else true.

(** The class [[\w._-]] on ASCII text. *)
Definition word_char (c : ascii) : bool :=
  PyStr.is_alnum c || bool_decide (c = "_"%char) || bool_decide (c = "."%char)
  || bool_decide (c = "-"%char).

Definition sanitize_path_component (component : string) : res string :=
  if negb (validate_server_name component) then
    raise PathValidationError ("Invalid path component: " +:+ component)
  else
    let sanitized := PyStr.of_chars (filter (λ c, word_char c) (PyStr.chars component)) in
    if bool_decide (sanitized = "") then
      raise PathValidationError
        ("Path component became empty after sanitization: " +:+ component)
    else Ok sanitized.

Definition validate_and_resolve_path (h : host) (p allowed_parent : path)
    : res path :=
  try_except
    (resolved_path ← resolve h p;
     resolved_parent ← resolve h allowed_parent;
     if negb (PyStr.startswith (str_path resolved_path) (str_path resolved_parent))
     then raise PathValidationError
            ("Path traversal detected: " +:+ str_path p
             +:+ " resolves outside allowed directory " +:+ str_path allowed_parent)
     else Ok resolved_path)
    [OSError; ValueError]
    (λ e, raise PathValidationError
            ("Invalid path: " +:+ str_path p +:+ " - " +:+ str_exn e)).

Definition create_safe_directory (p : path) (mode : Z) : M fs path :=
  try_catch
    ((* the result of validating each part is not looked at *)
     let _ := map validate_server_name p in
     _ ← mkdir_parents mode p;
     f ← get_state;
     if negb (exists_ f p) || negb (is_dir f p) then
       throw PathValidationError ("Failed to create directory: " +:+ str_path p)
     else mret p)
    [OSError]
    (λ e, throw PathValidationError
            ("Cannot create directory " +:+ str_path p +:+ ": " +:+ str_exn e)).

(** *** [PathManager] *)

Definition get_servers_directory (h : host) : M fs path :=
  let base_dir := path_join (home h) "minecraft_servers" in
  create_safe_directory base_dir o755.

Definition get_server_directory (h : host) (server_type version : string)
    (instance : Z) : M fs path :=
  if negb (validate_server_name server_type) then
    throw PathValidationError ("Invalid server type: " +:+ server_type)
  else if negb (validate_server_name version) then
    throw PathValidationError ("Invalid version: " +:+ version)
  else if (instance <? 0) || (999 <? instance) then
    throw PathValidationError ("Invalid instance number: " +:+ pretty instance)
  else
    base_dir ← get_servers_directory h;
    safe_server_type ← lift_res (sanitize_path_component server_type);
    safe_version ← lift_res (sanitize_path_component version);
    let server_dir_name :=
      if instance =? 0 then safe_server_type +:+ "-" +:+ safe_version
      else safe_server_type +:+ "-" +:+ safe_version +:+ "-" +:+ pretty instance in
    let server_dir := path_join base_dir server_dir_name in
    validated_path ← lift_res (validate_and_resolve_path h server_dir base_dir);
    create_safe_directory validated_path o755.

(** The [while instance < max_instances] loop; [todo] counts the
    iterations that remain.  One iteration either returns the directory
    ([Some]) or moves on to the next instance ([None]). *)
Fixpoint find_loop (h : host) (server_type version : string)
    (todo : nat) (instance : Z) : M fs path :=
  match todo with
  | O =>
      throw PathValidationError
        "Unable to find available directory after 1000 attempts"
  | S todo' =>
      found ←
        try_catch
          (server_dir ← get_server_directory h server_type version instance;
           f ← get_state;
           if negb (has_entries f server_dir) then mret (Some server_dir)
           else mret None)
          [PathValidationError]
          (λ _, mret None);
      match found with
      | Some server_dir => mret server_dir
      | None => find_loop h server_type version todo' (instance + 1)
      end
  end.

Definition max_instances : Z := 1000.

Definition find_available_server_directory (h : host)
    (server_type version : string) : M fs path :=
  find_loop h server_type version (Z.to_nat max_instances) 0.

Definition validate_install_directory (h : host) (install_dir : option path)
    : M fs (option path) :=
  match install_dir with
  | None => mret None
  | Some d =>
      try_catch
        (servers ← get_servers_directory h;
         let base_dir := removelast servers in
         validated_path ← lift_res (validate_and_resolve_path h d base_dir);
         created ← create_safe_directory validated_path o755;
         mret (Some created))
        [PathValidationError]
        (λ e, λ s, (Raise e, s))
  end.

End Paths.

(** ** [utils/system.py]: [JavaManager] *)

Module Java.

(** The class attribute [JAVA_VERSIONS], a dict. *)
Definition JAVA_VERSIONS : list (Z * string) :=
  [ (8, "openjdk-8-jdk"); (11, "openjdk-11-jdk"); (17, "openjdk-17-jdk");
    (21, "openjdk-21-jdk") ].

Definition version_patterns : list (string * Z) :=
  [ ("java-8", 8); ("java-11", 11); ("java-17", 17); ("java-21", 21);
    ("jdk-8", 8); ("jdk-11", 11); ("jdk-17", 17); ("jdk-21", 21);
    ("openjdk-8", 8); ("openjdk-11", 11); ("openjdk-17", 17); ("openjdk-21", 21);
    ("1.8", 8) ].

(** The loop [for pattern, version in version_patterns]: the first
    pattern found in the path decides. *)
Fixpoint first_pattern (patterns : list (string * Z)) (path_lower : string)
    : option Z :=
  match patterns with
  | [] => None
  | (pattern, version) :: rest =>
      if PyStr.contains_str pattern path_lower then Some version
      else first_pattern rest path_lower
  end.

Definition _parse_version_from_path (path : string) : option Z :=
  let path_lower := PyStr.lower path in
  first_pattern version_patterns path_lower.

Definition is_java_version_supported (version : Z) : bool :=
  bool_decide (version ∈ JAVA_VERSIONS.*1).

End Java.

(** ** JSON documents and the Python operations applied to them *)

Module Json.

Inductive pyval : Type :=
  | PNone
  | PBool (b : bool)
  | PInt (z : Z)
  | PStr (s : string)
  | PList (l : list pyval)
  | PDict (d : list (string * pyval)).

(** Lookup in a decoded JSON object. *)
Fixpoint assoc (key : string) (d : list (string * pyval)) : option pyval :=
  match d with
  | [] => None
  | (k, v) :: d' => if bool_decide (k = key) then Some v else assoc key d'
  end.

(** [bool(v)]. *)
Definition truthy (v : pyval) : bool :=
  match v with
  | PNone => false
  | PBool b => b
  | PInt z => negb (z =? 0)
  | PStr s => negb (bool_decide (s = ""))
  | PList l => match l with [] => false | _ => true end
  | PDict d => match d with [] => false | _ => true end
  end.

(** [v[key]] with a string key. *)
Definition getitem (v : pyval) (key : string) : res pyval :=
  match v with
  | PDict d =>
      match assoc key d with
      | Some x => Ok x
      | None => raise KeyError key
      end
  | PList _ => raise TypeError "list indices must be integers or slices, not str"
  | PStr _ => raise TypeError "string indices must be integers, not 'str'"
  | _ => raise TypeError "object is not subscriptable"
  end.

(** [v.get(key, default)]: only a dict has the method. *)
Definition get (v : pyval) (key : string) (fallback : pyval) : res pyval :=
  match v with
  | PDict d => Ok (default fallback (assoc key d))
  | _ => raise AttributeError "object has no attribute 'get'"
  end.

(** [key in v] with a string key. *)
Definition contains (v : pyval) (key : string) : res bool :=
  match v with
  | PDict d => Ok (bool_decide (is_Some (assoc key d)))
  | PList l =>
      Ok (existsb (λ x, match x with PStr s => bool_decide (s = key) | _ => false end) l)
  | PStr s =>
      Ok (existsb
            (λ i, bool_decide (String.substring i (String.length key) s = key))
            (seq 0 (S (String.length s))))
  | _ => raise TypeError "argument is not iterable"
  end.

(** [for x in v]: the items that the iteration yields. *)
Definition iterate (v : pyval) : res (list pyval) :=
  match v with
  | PList l => Ok l
  | PDict d => Ok (map (λ kv, PStr kv.1) d)
  | PStr s => Ok (map (λ c, PStr (String c "")) (PyStr.chars s))
  | _ => raise TypeError "object is not iterable"
  end.

(** [v == s] for a string literal [s]. *)
Definition eq_str (v : pyval) (s : string) : bool :=
  match v with PStr t => bool_decide (t = s) | _ => false end.

End Json.
Export Json.

(** ** [utils/base_api.py]: HTTP clients, JSON fetch, response cache *)

Module Http.

(** *** The network

    What the remote side does with a request is not decided by the
    program: the [n]-th request of the process, to a given URL, gets the
    reply [respond n url].  [sent] is the log of the requests made. *)
Inductive http_reply : Type :=
  | NoConnection (why : string)     (* the library raises its request error *)
  | Faulty (e : exn)                (* the library raises something else *)
  | Reply (status : Z) (body : option pyval).
                                    (* [body = None]: the payload is not JSON *)

Record net : Type := mk_net {
  respond : nat → string → http_reply;
  sent : list string;
}.

(** *** Client objects

    A client instance is its [__dict__]: the attributes that the
    constructors assigned.  Reading a name that is not there (and that no
    class of the hierarchy defines) raises [AttributeError]. *)
Inductive attr : Type :=
  | ANone
  | ASeconds (t : Z)
  | AStr (s : string)
  | ASession                         (* a [requests.Session] *)
  | AAsyncClient                     (* an [httpx.AsyncClient] *)
  | ACache (c : gmap string pyval)   (* a dict used as a cache *)
  | AClient (cls : string).          (* another client object *)

Record api_state : Type := mk_api {
  attrs : gmap string attr;
  wire : net;
}.

Definition getattr (name : string) : M api_state attr := λ s,
  match attrs s !! name with
  | Some a => (Ok a, s)
  | None => (raise AttributeError ("object has no attribute '" +:+ name +:+ "'"), s)
  end.

Definition setattr (name : string) (a : attr) : M api_state () :=
  modify_state (λ s, mk_api (<[name := a]> (attrs s)) (wire s)).

(** How an attribute prints inside an f-string. *)
Definition fmt (a : attr) : string :=
  match a with
  | ANone => "None"
  | ASeconds t => pretty t +:+ ".0"
  | AStr s => s
  | ASession => "<requests.sessions.Session object>"
  | AAsyncClient => "<httpx.AsyncClient object>"
  | ACache _ => "{...}"
  | AClient cls => "<" +:+ cls +:+ " object>"
  end.

(** [try: ... except A: ... except B: ...]: the first clause whose
    classes match handles the exception. *)
Fixpoint dispatch {S A} (e : exn)
    (clauses : list (list exn_class * (exn → M S A))) : M S A :=
  match clauses with
  | [] => λ s, (Raise e, s)
  | (classes, handler) :: rest =>
      if catches classes e then handler e else dispatch e rest
  end.

Definition try_clauses {S A} (body : M S A)
    (clauses : list (list exn_class * (exn → M S A))) : M S A := λ s,
  match body s with
  | (Ok a, s') => (Ok a, s')
  | (Raise e, s') => dispatch e clauses s'
  end.

(** One request on the wire. *)
Definition transmit (url : string) : M api_state http_reply := λ s,
  let w := wire s in
  (Ok (respond w (length (sent w)) url),
   mk_api (attrs s) (mk_net (respond w) (sent w ++ [url]))).

Record response : Type := mk_response {
  status_code : Z;
  payload : option pyval;
}.

(** [requests.get(url)] and [session.get(url)]. *)
Definition requests_get (url : string) : M api_state response :=
  r ← transmit url;
  match r with
  | NoConnection why => throw RequestException why
  | Faulty e => lift_res (Raise e)
  | Reply status body => mret (mk_response status body)
  end.

(** [response.raise_for_status()]: 4xx and 5xx raise [HTTPError], a
    [RequestException]. *)
Definition raise_for_status (r : response) : M api_state () :=
  if (400 <=? status_code r) && (status_code r <? 600)
  then throw RequestException ("HTTP error " +:+ pretty (status_code r))
  else mret ().

(** [response.json()]: a [ValueError] when the payload does not decode. *)
Definition response_json (r : response) : M api_state pyval :=
  match payload r with
  | Some v => mret v
  | None => throw ValueError "Expecting value"
  end.

(** *** [BaseHTTPClient] *)

Definition DEFAULT_TIMEOUT_SECONDS : Z := 30.
Definition DOWNLOAD_TIMEOUT_SECONDS : Z := 300.

Definition BaseHTTPClient_init (timeout : Z) (o : gmap string attr)
    : gmap string attr :=
  <["_async_client" := ANone]> (<["_session" := ANone]>
    (<["timeout" := ASeconds timeout]> o)).

(** The [session] property. *)
Definition session : M api_state attr :=
  s ← getattr "_session";
  match s with
  | ANone =>
      _ ← getattr "timeout";
      _ ← setattr "_session" ASession;
      getattr "_session"
  | _ => mret s
  end.

Definition session_get (s : attr) (url : string) : M api_state response :=
  match s with
  | ASession => requests_get url
  | _ => throw AttributeError "object has no attribute 'get'"
  end.

Definition get_json (url : string) : M api_state pyval :=
  try_clauses
    (s ← session;
     response ← session_get s url;
     _ ← raise_for_status response;
     response_json response)
    [ ([RequestException],
       λ e, throw APIError ("Failed to fetch data from " +:+ url +:+ ": " +:+ str_exn e));
      ([ValueError],
       λ e, throw APIError ("Invalid JSON response from " +:+ url)) ].

(** *** [CachedAPIClient] *)

Definition CachedAPIClient_init (timeout : Z) (o : gmap string attr)
    : gmap string attr :=
  <["_cache" := ACache ∅]> (BaseHTTPClient_init timeout o).

(** [self._cache] as a dict; anything else has no [in] or item access
    for a string key. *)
Definition the_cache (name : string) : M api_state (gmap string pyval) :=
  a ← getattr name;
  match a with
  | ACache c => mret c
  | _ => throw TypeError "argument is not a mapping"
  end.

Definition get_cached_or_fetch (cache_key : string)
    (fetch_func : M api_state pyval) : M api_state pyval :=
  c ← the_cache "_cache";
  if bool_decide (c !! cache_key = None) then
    fetched ←
      try_catch_all
        (v ← fetch_func;
         c' ← the_cache "_cache";
         _ ← setattr "_cache" (ACache (<[cache_key := v]> c'));
         mret true)
        (λ _, mret false);
    if fetched : bool then
      c'' ← the_cache "_cache";
      match c'' !! cache_key with
      | Some v => mret v
      | None => throw KeyError cache_key
      end
    else mret PNone
  else
    match c !! cache_key with
    | Some v => mret v
    | None => throw KeyError cache_key
    end.

Definition clear_cache : M api_state () :=
  _ ← the_cache "_cache";
  setattr "_cache" (ACache ∅).

Definition remove_from_cache (cache_key : string) : M api_state () :=
  c ← the_cache "_cache";
  setattr "_cache" (ACache (delete cache_key c)).

End Http.

(** ** [utils/api.py]: the resolvers *)

(** [packaging.version]: parsing and ordering of version strings is the
    library's; the development is parametric in it.  [version_parse]
    raises [InvalidVersion], a [ValueError], on a malformed string. *)
Class Packaging : Type := {
  pver : Type;
  version_parse : string → res pver;
  pver_eqb : pver → pver → bool;
  pver_ltb : pver → pver → bool;
}.

Module Api.
Import Http.

Definition MOJANG_MANIFEST_URL : string :=
  "https://launchermeta.mojang.com/mc/game/version_manifest.json".
Definition PAPER_API_URL : string := "https://api.papermc.io/v2".
Definition LEAF_API_URL : string := "https://api.leafmc.one".

(** [s.rstrip('/')] and [s.lstrip('/')]. *)
Fixpoint lstrip_slash_chars (l : list ascii) : list ascii :=
  match l with
  | c :: l' => if bool_decide (c = "/"%char) then lstrip_slash_chars l' else l
  | [] => []
  end.
Definition lstrip_slash (s : string) : string :=
  PyStr.of_chars (lstrip_slash_chars (PyStr.chars s)).
Definition rstrip_slash (s : string) : string :=
  PyStr.of_chars (rev (lstrip_slash_chars (rev (PyStr.chars s)))).

(** [BaseVersionAPI.__init__]; in the method resolution order of the
    resolver classes, [super()] of [BaseVersionAPI] is [CachedAPIClient]. *)
Definition BaseVersionAPI_init (base_url : string) (timeout : Z)
    (o : gmap string attr) : gmap string attr :=
  <["base_url" := AStr (rstrip_slash base_url)]> (CachedAPIClient_init timeout o).

Definition MinecraftServerAPI_init (base_url : string) (timeout : Z)
    (o : gmap string attr) : gmap string attr :=
  CachedAPIClient_init timeout (BaseVersionAPI_init base_url timeout o).

Definition build_url (endpoint : string) : M api_state string :=
  base ← getattr "base_url";
  mret (fmt base +:+ "/" +:+ lstrip_slash endpoint).

(** The base-class [get_version_info], which goes through the cache;
    [_fetch_version_info] is the subclass's. *)
Definition MinecraftServerAPI_get_version_info
    (_fetch_version_info : string → M api_state pyval) (version : string)
    : M api_state pyval :=
  let cache_key := "version_info_" +:+ version in
  get_cached_or_fetch cache_key (_fetch_version_info version).

(** [PaperAPI] and [LeafAPI] are the same code up to the project name
    and the base URL. *)
Section Project.
Variable project : string.
Variable api_url : string.

Definition project_new : gmap string attr :=
    MinecraftServerAPI_init api_url DEFAULT_TIMEOUT_SECONDS ∅.

Definition project_get_available_versions : M api_state pyval :=
    try_catch_all
      (url ← build_url ("projects/" +:+ project);
       data ← get_json url;
       lift_res (get data "versions" (PList [])))
      (λ _, mret (PList [])).

Definition project_get_builds (version : string) : M api_state pyval :=
    try_catch_all
      (url ← build_url ("projects/" +:+ project +:+ "/versions/" +:+ version);
       data ← get_json url;
       lift_res (get data "builds" (PList [])))
      (λ _, mret (PList [])).

Definition project_fetch_version_info (version : string) : M api_state pyval :=
    try_catch_all
      (url ← build_url ("projects/" +:+ project +:+ "/versions/" +:+ version);
       get_json url)
      (λ _, mret PNone).

Definition project_get_version_info (version : string) : M api_state pyval :=
    MinecraftServerAPI_get_version_info project_fetch_version_info version.
End Project.

Module PaperAPI.
Definition new := project_new PAPER_API_URL.
Definition get_available_versions := project_get_available_versions "paper".
Definition get_builds := project_get_builds "paper".
Definition _fetch_version_info := project_fetch_version_info "paper".
Definition get_version_info := project_get_version_info "paper".
End PaperAPI.

Module LeafAPI.
Definition new := project_new LEAF_API_URL.
Definition get_available_versions := project_get_available_versions "leaf".
Definition get_builds := project_get_builds "leaf".
Definition _fetch_version_info := project_fetch_version_info "leaf".
Definition get_version_info := project_get_version_info "leaf".
End LeafAPI.

(** *** [MinecraftVersionAPI] *)

Module MinecraftVersionAPI.

(** [__init__]: the inherited attributes, then the two project clients.
    Nothing else is ever assigned on the instance, and no class of the
    hierarchy defines [_version_cache], [_client], [MOJANG_MANIFEST_URL],
    [PAPER_API_URL] or [LEAF_API_URL] (the URL constants are names of the
    module, not of the class). *)
Definition new : gmap string attr :=
  <["_leaf_api" := AClient "LeafAPI"]> (<["_paper_api" := AClient "PaperAPI"]>
    (MinecraftServerAPI_init MOJANG_MANIFEST_URL DEFAULT_TIMEOUT_SECONDS ∅)).

(** [requests.get(url)] when [url] comes out of a JSON document. *)
Definition requests_get_val (url : pyval) : M api_state response :=
  match url with
  | PStr u => requests_get u
  | _ => throw RequestException "Invalid URL"
  end.

(** [version.parse(x)] when [x] comes out of a JSON document. *)
Definition parse_val `{Packaging} (x : pyval) : res pver :=
  match x with
  | PStr s => version_parse s
  | _ => raise TypeError "expected string or bytes-like object"
  end.

(** [_fetch_version_info(self, version)]: inside this method the name
    [version] is the parameter, a [str], and hides the [packaging] module;
    [version.parse(version)] is an attribute lookup on a string and raises
    before the loop over the manifest is reached. *)
Definition _fetch_version_info (version : string) : M api_state pyval :=
  try_catch_all
    (manifest ← get_json MOJANG_MANIFEST_URL;
     versions ← lift_res (getitem manifest "versions");
     throw AttributeError "'str' object has no attribute 'parse'")
    (λ _, mret PNone).

(** [get_vanilla_versions]: the comprehension
    [[v["id"] for v in data["versions"] if v["type"] == "release"]]. *)
Fixpoint release_ids (items : list pyval) : res (list pyval) :=
  match items with
  | [] => Ok []
  | v :: rest =>
      ty ← getitem v "type";
      if eq_str ty "release" then
        id ← getitem v "id";
        ids ← release_ids rest;
        Ok (id :: ids)
      else release_ids rest
  end.

Definition get_vanilla_versions : M api_state pyval :=
  try_catch_all
    (url ← getattr "MOJANG_MANIFEST_URL";
     response ← requests_get (fmt url);
     _ ← raise_for_status response;
     data ← response_json response;
     versions ← lift_res (getitem data "versions");
     items ← lift_res (iterate versions);
     ids ← lift_res (release_ids items);
     mret (PList ids))
    (λ _, mret (PList [])).

Definition get_available_versions : M api_state pyval := get_vanilla_versions.

(** The loop of [get_version_info] over the release entries of the
    manifest. *)
Fixpoint find_release `{Packaging} (version_str : string) (target_version : pver)
    (items : list pyval) : M api_state pyval :=
  match items with
  | [] => mret PNone
  | version_info :: rest =>
      ty ← lift_res (getitem version_info "type");
      if eq_str ty "release" then
        id ← lift_res (getitem version_info "id");
        parsed ← lift_res (parse_val id);
        if pver_eqb parsed target_version then
          url ← lift_res (getitem version_info "url");
          detail_response ← requests_get_val url;
          _ ← raise_for_status detail_response;
          detail_data ← response_json detail_response;
          cache ← the_cache "_version_cache";
          _ ← setattr "_version_cache" (ACache (<[version_str := detail_data]> cache));
          mret detail_data
        else find_release version_str target_version rest
      else find_release version_str target_version rest
  end.

(** [get_version_info(self, version_str)], which overrides the cached one
    of the base class. *)
Definition get_version_info `{Packaging} (version_str : string)
    : M api_state pyval :=
  try_catch_all
    (cache ← the_cache "_version_cache";
     match cache !! version_str with
     | Some v => mret v
     | None =>
         url ← getattr "MOJANG_MANIFEST_URL";
         response ← requests_get (fmt url);
         _ ← raise_for_status response;
         doc ← response_json response;
         versions ← lift_res (getitem doc "versions");
         target_version ← lift_res (version_parse version_str);
         items ← lift_res (iterate versions);
         find_release version_str target_version items
     end)
    (λ _, mret PNone).

(** [version_info and "downloads" in version_info and
    "server" in version_info["downloads"]], then the URL. *)
Definition server_url_of (version_info : pyval) : res pyval :=
  if negb (truthy version_info) then Ok PNone
  else
    has_downloads ← contains version_info "downloads";
    if negb has_downloads then Ok PNone
    else
      downloads ← getitem version_info "downloads";
      has_server ← contains downloads "server";
      if negb has_server then Ok PNone
      else
        downloads' ← getitem version_info "downloads";
        server ← getitem downloads' "server";
        getitem server "url".

Definition get_server_jar_url `{Packaging} (minecraft_version : string)
    : M api_state pyval :=
  version_info ← get_version_info minecraft_version;
  lift_res (server_url_of version_info).

Definition _build_download_url `{Packaging} (version : string)
    : M api_state pyval :=
  version_info ← get_version_info version;
  lift_res (server_url_of version_info).

(** The async project queries go through [self._client]. *)
Definition client_get (client : attr) (url : string) : M api_state response :=
  match client with
  | ASession | AAsyncClient => requests_get url
  | _ => throw AttributeError "object has no attribute 'get'"
  end.

Definition project_query (url_attr path_ key : string) : M api_state pyval :=
  try_catch_all
    (client ← getattr "_client";
     base ← getattr url_attr;
     response ← client_get client (fmt base +:+ path_);
     _ ← raise_for_status response;
     data ← response_json response;
     lift_res (get data key (PList [])))
    (λ _, mret (PList [])).

Definition get_paper_versions : M api_state pyval :=
  project_query "PAPER_API_URL" "/projects/paper" "versions".

Definition get_paper_builds (minecraft_version : string) : M api_state pyval :=
  project_query "PAPER_API_URL"
    ("/projects/paper/versions/" +:+ minecraft_version) "builds".

Definition get_leaf_versions : M api_state pyval :=
  project_query "LEAF_API_URL" "/projects/leaf" "versions".

Definition get_leaf_builds (minecraft_version : string) : M api_state pyval :=
  project_query "LEAF_API_URL"
    ("/projects/leaf/versions/" +:+ minecraft_version) "builds".




(** The two download URLs are f-strings that start with an attribute of
    the instance. *)
Definition get_paper_download_url (minecraft_version : string) (build : Z)
    : M api_state string :=
  base ← getattr "PAPER_API_URL";
  mret (fmt base +:+ "/projects/paper/versions/" +:+ minecraft_version
        +:+ "/builds/" +:+ pretty build +:+ "/downloads/paper-"
        +:+ minecraft_version +:+ "-" +:+ pretty build +:+ ".jar").

Definition get_leaf_download_url (minecraft_version : string) (build : Z)
    : M api_state string :=
  base ← getattr "LEAF_API_URL";
  mret (fmt base +:+ "/projects/leaf/versions/" +:+ minecraft_version
        +:+ "/builds/" +:+ pretty build +:+ "/downloads/leaf-"
        +:+ minecraft_version +:+ "-" +:+ pretty build +:+ ".jar").

End MinecraftVersionAPI.

End Api.

(** ** [BaseDownloadClient.download_file]: the streaming download *)

Module Download.

(** [int(response.headers.get("content-length", 0))]. *)
Inductive content_length : Type :=
  | NoLength                  (* header absent: the default [0] *)
  | Length (n : Z)            (* the header parses to [n] *)
  | BadLength.                (* [int] raises [ValueError] *)

(** What the server sends for one streamed [GET]: the chunks that
    [aiter_bytes] yields, and whether the stream then breaks instead of
    ending. *)
Record stream : Type := mk_stream {
  refused : option string;    (* [httpx.RequestError] on opening *)
  stream_status : Z;
  length_header : content_length;
  chunks : list (list byte);
  breaks : option string;     (* [httpx.RequestError] after the chunks *)
}.

(** Files on disk, what can be opened for writing, and how many bytes
    still fit ([None]: no limit). *)
Record disk : Type := mk_disk {
  files : gmap string (list byte);
  writable : string → bool;
  room : option nat;
}.

(** The state that a download acts on: the disk and the calls received by
    the progress callback, oldest first. *)
Record dl_state : Type := mk_dl {
  store : disk;
  progress : list (Z * Z);
}.

(** [open(destination, "wb")]: creates or truncates. *)
Definition open_wb (destination : string) : M dl_state () := λ s,
  let d := store s in
  if writable d destination then
    (Ok (), mk_dl (mk_disk (<[destination := []]> (files d)) (writable d) (room d))
                  (progress s))
  else (raise OSError ("cannot open " +:+ destination), s).

(** [file.write(chunk)]. *)
Definition file_write (destination : string) (chunk : list byte)
    : M dl_state () := λ s,
  let d := store s in
  let fits := match room d with
              | None => true
              | Some r => (length chunk <=? r)%nat
              end in
  if fits then
    (Ok (),
     mk_dl (mk_disk
              (<[destination := (default [] (files d !! destination) ++ chunk)%list]> (files d))
              (writable d)
              ((λ r, (r - length chunk)%nat) <$> room d))
           (progress s))
  else (raise OSError "No space left on device", s).

(** [progress_callback(downloaded, total)]. *)
Definition report (downloaded total : Z) : M dl_state () :=
  modify_state (λ s, mk_dl (store s) (progress s ++ [(downloaded, total)])).

(** The body of [async for chunk in response.aiter_bytes(...)]. *)
Fixpoint write_chunks (destination : string) (has_callback : bool)
    (total_size : Z) (todo : list (list byte)) (downloaded : Z) : M dl_state Z :=
  match todo with
  | [] => mret downloaded
  | chunk :: rest =>
      _ ← file_write destination chunk;
      let downloaded := downloaded + Z.of_nat (length chunk) in
      _ ← (if has_callback && (0 <? total_size)
           then report downloaded total_size else mret ());
      write_chunks destination has_callback total_size rest downloaded
  end.

(** [download_file(url, destination, progress_callback, chunk_size)];
    [serve] is the remote side. *)
Definition download_file (serve : string → Z → stream) (url destination : string)
    (has_callback : bool) (chunk_size : Z) : M dl_state bool :=
  Http.try_clauses
    (let response := serve url chunk_size in
     match refused response with
     | Some why => throw HttpxRequestError why
     | None =>
         _ ← (if (400 <=? stream_status response) && (stream_status response <? 600)
              then throw HttpxStatusError "HTTP error" else mret ());
         total_size ←
           match length_header response with
           | NoLength => mret 0
           | Length n => mret n
           | BadLength => throw ValueError "invalid literal for int()"
           end;
         _ ← open_wb destination;
         _ ← write_chunks destination has_callback total_size (chunks response) 0;
         match breaks response with
         | Some why => throw HttpxRequestError why
         | None => mret true
         end
     end)
    [ ([HttpxRequestError],
       λ e, throw DownloadError ("Failed to download " +:+ url +:+ ": " +:+ str_exn e));
      ([OSError],
       λ e, throw DownloadError
              ("Failed to write file " +:+ destination +:+ ": " +:+ str_exn e)) ].

Definition default_chunk_size : Z := 8192.

End Download.

(** ** [constants.py] *)

Module Constants.

Definition MIN_RAM_MB : Z := 512.
Definition MAX_RAM_MB : Z := 32768.
Definition DEFAULT_RAM_MB : Z := 2048.
Definition MIN_PORT : Z := 1024.
Definition MAX_PORT : Z := 65535.
Definition DEFAULT_PORT : Z := 25565.
Definition DEFAULT_JAVA_VERSION : Z := 8.

Definition DEFAULT_MINECRAFT_VERSIONS : list string :=
  [ "1.7.2"; "1.7.4"; "1.7.5"; "1.7.6"; "1.7.7"; "1.7.8"; "1.7.9"; "1.7.10";
    "1.8"; "1.8.1"; "1.8.2"; "1.8.3"; "1.8.4"; "1.8.5"; "1.8.6"; "1.8.7"; "1.8.8"; "1.8.9";
    "1.9"; "1.9.1"; "1.9.2"; "1.9.3"; "1.9.4";
    "1.10"; "1.10.1"; "1.10.2";
    "1.11"; "1.11.1"; "1.11.2";
    "1.12"; "1.12.1"; "1.12.2";
    "1.13"; "1.13.1"; "1.13.2";
    "1.14"; "1.14.1"; "1.14.2"; "1.14.3"; "1.14.4";
    "1.15"; "1.15.1"; "1.15.2";
    "1.16"; "1.16.1"; "1.16.2"; "1.16.3"; "1.16.4"; "1.16.5";
    "1.17"; "1.17.1";
    "1.18"; "1.18.1"; "1.18.2";
    "1.19"; "1.19.1"; "1.19.2"; "1.19.3"; "1.19.4";
    "1.20"; "1.20.1"; "1.20.2"; "1.20.3"; "1.20.4"; "1.20.5"; "1.20.6";
    "1.21"; "1.21.1"; "1.21.2"; "1.21.3"; "1.21.4"; "1.21.5"; "1.21.6"; "1.21.7"; "1.21.8" ].

Definition FORGE_SUPPORTED_VERSIONS : list string :=
  [ "1.7.10";
    "1.8"; "1.8.9";
    "1.9"; "1.9.4";
    "1.10"; "1.10.2";
    "1.11"; "1.11.2";
    "1.12"; "1.12.1"; "1.12.2";
    "1.13"; "1.13.2";
    "1.14"; "1.14.1"; "1.14.2"; "1.14.3"; "1.14.4";
    "1.15"; "1.15.1"; "1.15.2";
    "1.16"; "1.16.1"; "1.16.2"; "1.16.3"; "1.16.4"; "1.16.5";
    "1.17"; "1.17.1";
    "1.18"; "1.18.1"; "1.18.2";
    "1.19"; "1.19.1"; "1.19.2"; "1.19.3"; "1.19.4";
    "1.20"; "1.20.1"; "1.20.2"; "1.20.3"; "1.20.4"; "1.20.5"; "1.20.6";
    "1.21"; "1.21.1"; "1.21.2"; "1.21.3"; "1.21.4"; "1.21.5"; "1.21.6"; "1.21.7"; "1.21.8" ].

Definition SPIGOT_SUPPORTED_VERSIONS : list string :=
  [ "1.8"; "1.8.3"; "1.8.7"; "1.8.8";
    "1.9"; "1.9.2"; "1.9.4";
    "1.10"; "1.10.2";
    "1.11"; "1.11.2";
    "1.12"; "1.12.1"; "1.12.2";
    "1.13"; "1.13.1"; "1.13.2";
    "1.14"; "1.14.1"; "1.14.2"; "1.14.3"; "1.14.4";
    "1.15"; "1.15.1"; "1.15.2";
    "1.16"; "1.16.1"; "1.16.2"; "1.16.3"; "1.16.4"; "1.16.5";
    "1.17"; "1.17.1";
    "1.18"; "1.18.1"; "1.18.2";
    "1.19"; "1.19.1"; "1.19.2"; "1.19.3"; "1.19.4";
    "1.20"; "1.20.1"; "1.20.2"; "1.20.3"; "1.20.4"; "1.20.5"; "1.20.6";
    "1.21"; "1.21.1"; "1.21.2"; "1.21.3"; "1.21.4"; "1.21.5"; "1.21.6"; "1.21.7"; "1.21.8" ].


Definition FORBIDDEN_SYSTEM_PATHS : list string :=
  [ "/etc"; "/usr"; "/var"; "/boot"; "/sys"; "/proc"; "/dev" ].

End Constants.

(** ** [utils/validation.py]: the checks of the command line

    The values arrive at their annotated types, so the [isinstance] tests
    of the validators pass. *)

Module Validation.
Import Paths Constants.

(** *** [BaseValidator] *)





(** *** [ServerValidator] *)








Definition validate_server_directory (h : host) (directory : path) : res path :=
  directory_path ←
    try_except (resolve h directory) [Exception]
      (λ e, raise ValidationError ("Invalid directory path: " +:+ str_exn e));
  let path_str := str_path directory_path in
  if existsb (λ forbidden_path, PyStr.startswith path_str forbidden_path)
       FORBIDDEN_SYSTEM_PATHS
  then raise ValidationError "Cannot install to system directories"
  else Ok directory_path.

(** *** [InstallationValidator] *)

(** The dict [validated]; the optional keys are present when the
    argument was not [None]. *)
Record validated : Type := mk_validated {
  v_server_type : string;
  v_version : string;
  v_ram : Z;
  v_port : Z;
  v_build : option Z;
  v_forge_version : option string;
  v_directory : option path;
}.



End Validation.

(** ** [servers/*.py]: the server variants *)

Module Servers.
Import Paths Constants.

Inductive kind : Type := Vanilla | Paper | Spigot | Forge | Leaf.

Global Instance kind_eq_dec : EqDecision kind.
Proof. solve_decision. Defined.

(** The [server_type] property of the five subclasses. *)
Definition server_type (k : kind) : string :=
  match k with
  | Vanilla => "vanilla"
  | Paper => "paper"
  | Spigot => "spigot"
  | Forge => "forge"
  | Leaf => "leaf"
  end.

(** The state of [asyncio] in the calling thread. *)
Inductive loop_state : Type :=
  | NoLoop      (* [get_event_loop()] raises [RuntimeError] *)
  | Idle        (* a loop that is not running *)
  | Running.    (* called from inside a running loop *)

(** What a server reads from its surroundings without changing it. *)
Record machine : Type := mk_machine {
  the_host : host;
  event_loop : loop_state;
}.

(** What a server can change outside itself: directories on disk, and
    requests sent to remote services. *)
Record world : Type := mk_world {
  dirs : fs;
  traffic : list string;
}.

(** [self._api]: the methods of the resolver that the servers call, at
    their annotated types. *)
Record api_handle : Type := mk_api_handle {
  get_vanilla_versions : M world (list string);
  get_server_jar_url : string → M world (option string);
  get_paper_versions : M world (list string);
  get_paper_builds : string → M world (list Z);
  get_paper_download_url : string → option Z → M world string;
  get_leaf_versions : M world (list string);
  get_leaf_builds : string → M world (list Z);
  get_leaf_download_url : string → option Z → M world string;
}.

(** [self._download_manager]: [download_file(url, destination,
    progress_callback)]; the flag says whether a callback is passed. *)
Record download_handle : Type := mk_download_handle {
  download_file : string → string → bool → M world bool;
}.

(** The attributes of a server object.  An attribute that may be missing
    or [None] is an [option]; [_cached_versions] is [None] until the
    attribute is first assigned. *)
Record server : Type := mk_server {
  kind_of : kind;
  version : string;
  ram_allocation : Z;
  server_port : Z;
  _install_directory : option path;
  _api : option api_handle;
  _download_manager : option download_handle;
  build : option Z;
  forge_version : option string;
  _cached_versions : option (list string);
}.

Record st : Type := mk_st { self : server; env : world }.

Definition in_dirs {A} (m : M fs A) : M world A := λ w,
  let '(r, d) := m (dirs w) in (r, mk_world d (traffic w)).

Definition in_world {A} (m : M world A) : M st A := λ s,
  let '(r, w) := m (env s) in (r, mk_st (self s) w).

Definition get_self : M st server := λ s, (Ok (self s), s).
Definition set_self (o : server) : M st () := λ s, (Ok (), mk_st o (env s)).

Definition with_install_directory (o : server) (d : option path) : server :=
  mk_server (kind_of o) (version o) (ram_allocation o) (server_port o) d
    (_api o) (_download_manager o) (build o) (forge_version o) (_cached_versions o).

Definition with_build (o : server) (b : option Z) : server :=
  mk_server (kind_of o) (version o) (ram_allocation o) (server_port o)
    (_install_directory o) (_api o) (_download_manager o) b (forge_version o)
    (_cached_versions o).

Definition with_forge_version (o : server) (v : option string) : server :=
  mk_server (kind_of o) (version o) (ram_allocation o) (server_port o)
    (_install_directory o) (_api o) (_download_manager o) (build o) v
    (_cached_versions o).

Definition with_cached_versions (o : server) (vs : list string) : server :=
  mk_server (kind_of o) (version o) (ram_allocation o) (server_port o)
    (_install_directory o) (_api o) (_download_manager o) (build o)
    (forge_version o) (Some vs).

(** *** [BaseServer] *)

Definition BaseServer_init (h : host) (k : kind) (version : string)
    (ram_allocation server_port : Z) (install_directory : option path)
    : M world server :=
  if bool_decide (PyStr.strip version = "") then
    throw ValidationError "Version must be a non-empty string"
  else if (ram_allocation <? MIN_RAM_MB) || (MAX_RAM_MB <? ram_allocation) then
    throw ValidationError
      ("RAM allocation must be between " +:+ pretty MIN_RAM_MB +:+ "MB and "
       +:+ pretty MAX_RAM_MB +:+ "MB")
  else if (server_port <? MIN_PORT) || (MAX_PORT <? server_port) then
    throw ValidationError
      ("Server port must be between " +:+ pretty MIN_PORT +:+ " and "
       +:+ pretty MAX_PORT)
  else
    dir ← try_catch
             (in_dirs (validate_install_directory h install_directory))
             [PathValidationError]
             (λ e, throw ValidationError ("Invalid install directory: " +:+ str_exn e));
    mret (mk_server k (PyStr.strip version) ram_allocation server_port dir
            None None None None None).

(** [asyncio.get_event_loop()], [loop.run_until_complete(coro)] and
    [asyncio.run(coro)]. *)
Definition get_event_loop (mc : machine) : M st () :=
  match event_loop mc with
  | NoLoop => throw RuntimeError "There is no current event loop"
  | _ => mret ()
  end.

Definition run_until_complete {A} (mc : machine) (coro : M st A) : M st A :=
  match event_loop mc with
  | Running => throw RuntimeError "This event loop is already running"
  | _ => coro
  end.

Definition asyncio_run {A} (mc : machine) (coro : M st A) : M st A :=
  match event_loop mc with
  | Running =>
      throw RuntimeError "asyncio.run() cannot be called from a running event loop"
  | _ => coro
  end.

(** [self._api.name(...)]: looking the method up on [None] raises. *)
Definition api_method {A} (name : string) (call : api_handle → M world A)
    : M st (M st A) :=
  o ← get_self;
  match _api o with
  | None =>
      throw AttributeError
        ("'NoneType' object has no attribute '" +:+ name +:+ "'")
  | Some a => mret (in_world (call a))
  end.

(** The versions fetched by [PaperServer] and [LeafServer]:
    [loop.run_until_complete(...)], or [asyncio.run(...)] after a
    [RuntimeError]. *)
Definition fetch_versions_on_loop (mc : machine) (name : string)
    (call : api_handle → M world (list string)) : M st (list string) :=
  try_catch
    (_ ← get_event_loop mc;
     coro ← api_method name call;
     run_until_complete mc coro)
    [RuntimeError]
    (λ _, coro ← api_method name call;
          asyncio_run mc coro).

(** The [supported_versions] property of the five subclasses. *)
Definition supported_versions (mc : machine) : M st (list string) :=
  o ← get_self;
  match kind_of o with
  | Spigot => mret SPIGOT_SUPPORTED_VERSIONS
  | Forge => mret FORGE_SUPPORTED_VERSIONS
  | Vanilla =>
      match _cached_versions o with
      | Some vs => mret vs
      | None =>
          vs ← match _api o with
               | Some a =>
                   fetched ← in_world (get_vanilla_versions a);
                   mret (match fetched with
                         | [] => DEFAULT_MINECRAFT_VERSIONS
                         | _ => fetched
                         end)
               | None => mret DEFAULT_MINECRAFT_VERSIONS
               end;
          o' ← get_self;
          _ ← set_self (with_cached_versions o' vs);
          mret vs
      end
  | Paper =>
      match _cached_versions o with
      | Some vs => mret vs
      | None =>
          vs ← fetch_versions_on_loop mc "get_paper_versions" get_paper_versions;
          o' ← get_self;
          _ ← set_self (with_cached_versions o' vs);
          mret vs
      end
  | Leaf =>
      match _cached_versions o with
      | Some vs => mret vs
      | None =>
          fetched ← fetch_versions_on_loop mc "get_leaf_versions" get_leaf_versions;
          let vs :=
            match fetched with
            | [] =>
                filter (λ v, PyStr.startswith v "1.19." || PyStr.startswith v "1.20."
                             || PyStr.startswith v "1.21.")
                       DEFAULT_MINECRAFT_VERSIONS
            | _ => fetched
            end in
          o' ← get_self;
          _ ← set_self (with_cached_versions o' vs);
          mret vs
      end
  end.

Definition is_version_supported (mc : machine) (v : string) : M st bool :=
  vs ← supported_versions mc;
  mret (bool_decide (v ∈ vs)).

Definition _validate_version_support (mc : machine) : M st () :=
  o ← get_self;
  ok ← is_version_supported mc (version o);
  if negb ok then
    throw UnsupportedVersionError
      ("Version " +:+ version o +:+ " is not supported for "
       +:+ server_type (kind_of o))
  else mret ().

(** The subclass constructors: [super().__init__], the subclass's own
    attribute, then the version check. *)
Definition finish_init (mc : machine) (o : server) : M world server := λ w,
  match _validate_version_support mc (mk_st o w) with
  | (Ok _, s) => (Ok (self s), env s)
  | (Raise e, s) => (Raise e, env s)
  end.

Definition VanillaServer (mc : machine) (version : string)
    (ram_allocation server_port : Z) (install_directory : option path)
    : M world server :=
  o ← BaseServer_init (the_host mc) Vanilla version ram_allocation server_port
        install_directory;
  finish_init mc o.

Definition SpigotServer (mc : machine) (version : string)
    (ram_allocation server_port : Z) (install_directory : option path)
    : M world server :=
  o ← BaseServer_init (the_host mc) Spigot version ram_allocation server_port
        install_directory;
  finish_init mc o.

Definition PaperServer (mc : machine) (version : string) (build : option Z)
    (ram_allocation server_port : Z) (install_directory : option path)
    : M world server :=
  o ← BaseServer_init (the_host mc) Paper version ram_allocation server_port
        install_directory;
  finish_init mc (with_build o build).

Definition LeafServer (mc : machine) (version : string) (build : option Z)
    (ram_allocation server_port : Z) (install_directory : option path)
    : M world server :=
  o ← BaseServer_init (the_host mc) Leaf version ram_allocation server_port
        install_directory;
  finish_init mc (with_build o build).

Definition ForgeServer (mc : machine) (version : string)
    (forge_version : option string)
    (ram_allocation server_port : Z) (install_directory : option path)
    : M world server :=
  o ← BaseServer_init (the_host mc) Forge version ram_allocation server_port
        install_directory;
  finish_init mc (with_forge_version o forge_version).

(** [SERVER_TYPES[server_type](version, **kwargs)] as [cli.install] builds
    it: [build] is passed to Paper and Leaf, [forge_version] to Forge, and
    only when truthy. *)
Definition create_server (mc : machine) (k : kind) (version : string)
    (ram port : Z) (directory : option path)
    (build : option Z) (forge_version : option string) : M world server :=
  let truthy_build :=
    match build with Some b => if b =? 0 then None else Some b | None => None end in
  let truthy_forge :=
    match forge_version with
    | Some v => if bool_decide (v = "") then None else Some v
    | None => None
    end in
  match k with
  | Vanilla => VanillaServer mc version ram port directory
  | Paper => PaperServer mc version truthy_build ram port directory
  | Spigot => SpigotServer mc version ram port directory
  | Forge => ForgeServer mc version truthy_forge ram port directory
  | Leaf => LeafServer mc version truthy_build ram port directory
  end.

(** The [install_directory] property. *)
Definition install_directory (mc : machine) : M st path :=
  o ← get_self;
  match _install_directory o with
  | Some d => mret d
  | None =>
      d ← try_catch
            (in_world (in_dirs
               (find_available_server_directory (the_host mc)
                  (server_type (kind_of o)) (version o))))
            [PathValidationError]
            (λ e, throw ServerInstallationError
                    ("Cannot create install directory: " +:+ str_exn e));
      o' ← get_self;
      _ ← set_self (with_install_directory o' (Some d));
      mret d
  end.

(** [get_jar_filename] of Paper and Leaf: a build of [0] is falsy. *)
Definition build_jar_filename (project : string) (o : server) : string :=
  match build o with
  | Some b =>
      if b =? 0 then project +:+ "-" +:+ version o +:+ "-latest.jar"
      else project +:+ "-" +:+ version o +:+ "-" +:+ pretty b +:+ ".jar"
  | None => project +:+ "-" +:+ version o +:+ "-latest.jar"
  end.

Definition get_jar_filename (o : server) : string :=
  match kind_of o with
  | Vanilla => "minecraft_server." +:+ version o +:+ ".jar"
  | Paper => build_jar_filename "paper" o
  | Leaf => build_jar_filename "leaf" o
  | Spigot => "spigot-" +:+ version o +:+ ".jar"
  | Forge =>
      match forge_version o with
      | Some fv =>
          if bool_decide (fv = "") then "forge-" +:+ version o +:+ ".jar"
          else "forge-" +:+ version o +:+ "-" +:+ fv +:+ ".jar"
      | None => "forge-" +:+ version o +:+ ".jar"
      end
  end.

(** The [server_jar_path] property. *)
Definition server_jar_path (mc : machine) : M st path :=
  d ← install_directory mc;
  o ← get_self;
  mret (path_join d (get_jar_filename o)).

(** *** Build selection of [PaperServer] and [LeafServer] *)

(** [max(builds)] on a non-empty list. *)
Definition max_of (b : Z) (bs : list Z) : Z := foldl Z.max b bs.

Definition builds_method (k : kind) : string :=
  match k with Leaf => "get_leaf_builds" | _ => "get_paper_builds" end.

Definition builds_call (k : kind) : api_handle → string → M world (list Z) :=
  match k with Leaf => get_leaf_builds | _ => get_paper_builds end.

Definition get_available_builds : M st (list Z) :=
  o ← get_self;
  coro ← api_method (builds_method (kind_of o))
           (λ a, builds_call (kind_of o) a (version o));
  coro.

Definition get_latest_build : M st (option Z) :=
  builds ← get_available_builds;
  mret (match builds with
        | [] => None
        | b :: bs => Some (max_of b bs)
        end).

Definition ensure_build_selected : M st bool :=
  o ← get_self;
  match build o with
  | None =>
      latest_build ← get_latest_build;
      match latest_build with
      | None => mret false
      | Some b =>
          o' ← get_self;
          _ ← set_self (with_build o' (Some b));
          mret true
      end
  | Some _ => mret true
  end.

(** *** Acquisition by [PaperServer] and [LeafServer] *)

(** [self._download_manager.download_file(url, str(self.server_jar_path),
    progress_callback)]: the manager is looked up before the arguments
    are evaluated. *)
Definition fetch_jar (mc : machine) (download_url : string)
    (has_callback : bool) : M st bool :=
  o ← get_self;
  match _download_manager o with
  | None =>
      throw AttributeError "'NoneType' object has no attribute 'download_file'"
  | Some dm =>
      jar ← server_jar_path mc;
      in_world (download_file dm download_url (str_path jar) has_callback)
  end.

(** [PaperServer.download_server_jar]. *)
Definition Paper_download_server_jar (mc : machine) (has_callback : bool)
    : M st bool :=
  try_catch_all
    (selected ← ensure_build_selected;
     if negb selected then mret false
     else
       o ← get_self;
       call ← api_method "get_paper_download_url"
                (λ a, get_paper_download_url a (version o) (build o));
       download_url ← call;
       fetch_jar mc download_url has_callback)
    (λ _, mret false).

(** [LeafServer.is_direct_download_version]: the comparison with
    [1.21.4]; any exception gives [False]. *)
Definition is_direct_download_version `{Packaging} (o : server) : bool :=
  match version_parse (version o), version_parse "1.21.4" with
  | Ok a, Ok b => pver_ltb a b
  | _, _ => false
  end.

Definition get_direct_download_url (o : server) : string :=
  "https://api.leafmc.one/v2/projects/leaf/versions/" +:+ version o
  +:+ "/builds/latest/downloads/leaf-" +:+ version o +:+ ".jar".

(** [LeafServer.download_server_jar]. *)
Definition Leaf_download_server_jar `{Packaging} (mc : machine)
    (has_callback : bool) : M st bool :=
  try_catch_all
    (o ← get_self;
     if is_direct_download_version o then
       fetch_jar mc (get_direct_download_url o) has_callback
     else
       selected ← ensure_build_selected;
       if negb selected then mret false
       else
         o' ← get_self;
         call ← api_method "get_leaf_download_url"
                  (λ a, get_leaf_download_url a (version o') (build o'));
         download_url ← call;
         fetch_jar mc download_url has_callback)
    (λ _, mret false).

(** [VanillaServer.download_server_jar]: an absent or empty URL is
    falsy. *)
Definition Vanilla_download_server_jar (mc : machine) (has_callback : bool)
    : M st bool :=
  try_catch_all
    (o ← get_self;
     match _api o with
     | None =>
         throw ServerInstallationError
           "API client not initialized - server must be used as async context manager"
     | Some a =>
         download_url ← in_world (get_server_jar_url a (version o));
         match download_url with
         | None => mret false
         | Some url =>
             if bool_decide (url = "") then mret false
             else fetch_jar mc url has_callback
         end
     end)
    (λ _, mret false).

(** The [start_script_path] property. *)
Definition start_script_path (mc : machine) : M st path :=
  d ← install_directory mc;
  mret (path_join d "start.sh").

(** [p.exists()]. *)
Definition path_exists (p : path) : M st bool :=
  s ← get_state;
  mret (exists_ (dirs (env s)) p).

(** [is_installed]: the three tests of the [and] chain, each reading its
    path through the properties. *)
Definition is_installed (mc : machine) : M st bool :=
  jar ← server_jar_path mc;
  has_jar ← path_exists jar;
  if negb has_jar then mret false
  else
    script ← start_script_path mc;
    has_script ← path_exists script;
    if negb has_script then mret false
    else
      d ← install_directory mc;
      path_exists (path_join d "eula.txt").

End Servers.

(** ** [BaseServer.install]: the installation pipeline *)

Module Pipeline.
Import Paths.

Inductive level : Type := DEBUG | INFO | ERROR.

Section Install.
Context {W : Type}.

(** The methods of the server that [install] calls; each subclass brings
    its own.  [W] is everything they act on: the server object and the
    machine around it. *)
Record methods : Type := mk_methods {
  server_type : string;
  version : string;
  install_directory : M W path;
  has_download_manager : W → bool;
  ensure_java_installation : M W bool;
  download_server_jar : bool → M W bool;
  create_server_properties : M W bool;
  create_start_script : M W bool;
  create_eula_file : M W bool;
}.

(** The pipeline runs on [W] and on the records of its own logger. *)
Definition run {A} (m : M W A) : M (W * list (level * string)) A := λ s,
  let '(r, w) := m s.1 in (r, (w, s.2)).

Definition logger (l : level) (msg : string) : M (W * list (level * string)) () :=
  modify_state (λ s, (s.1, (s.2 ++ [(l, msg)])%list)).

Definition _ensure_java_step (m : methods) : M W bool :=
  ensure_java_installation m.

Definition _download_jar_step (m : methods) (progress_callback : bool)
    : M W bool :=
  w ← get_state;
  if negb (has_download_manager m w) then
    throw ServerInstallationError "Download manager not initialized"
  else download_server_jar m progress_callback.

Definition _create_properties_step (m : methods) : M W bool :=
  create_server_properties m.

Definition _create_script_step (m : methods) : M W bool :=
  create_start_script m.

Definition _create_eula_step (m : methods) : M W bool :=
  create_eula_file m.

(** The list [install_steps]; the coroutine step is already applied to
    the progress callback. *)
Definition install_steps (m : methods) (progress_callback : bool)
    : list (string * M W bool) :=
  [ ("Java installation", _ensure_java_step m);
    ("Server jar download", _download_jar_step m progress_callback);
    ("Server properties creation", _create_properties_step m);
    ("Start script creation", _create_script_step m);
    ("EULA file creation", _create_eula_step m) ].

(** One turn of the [for] loop: the inner [try]. *)
Definition run_step (step_name : string) (step_func : M W bool)
    : M (W * list (level * string)) () :=
  try_catch_all
    (_ ← logger DEBUG ("Starting step: " +:+ step_name);
     success ← run step_func;
     if negb success then
       let error_msg := "Installation failed at step '" +:+ step_name +:+ "'" in
       _ ← logger ERROR error_msg;
       throw ServerInstallationError error_msg
     else logger DEBUG ("Completed step: " +:+ step_name))
    (λ e,
       let error_msg :=
         "Installation failed at step '" +:+ step_name +:+ "': " +:+ str_exn e in
       _ ← logger ERROR error_msg;
       throw ServerInstallationError error_msg).

Fixpoint run_steps (steps : list (string * M W bool))
    : M (W * list (level * string)) () :=
  match steps with
  | [] => mret ()
  | (step_name, step_func) :: rest =>
      _ ← run_step step_name step_func;
      run_steps rest
  end.

Definition install (m : methods) (progress_callback : bool)
    : M (W * list (level * string)) bool :=
  Http.try_clauses
    (dir ← run (install_directory m);
     _ ← logger INFO ("Installing " +:+ server_type m +:+ " " +:+ version m
                      +:+ " to " +:+ str_path dir);
     _ ← run_steps (install_steps m progress_callback);
     _ ← logger INFO ("Successfully installed " +:+ server_type m +:+ " "
                      +:+ version m);
     mret true)
    [ ([ServerInstallationError], λ e, lift_res (Raise e));
      ([Exception],
       λ e,
         let error_msg :=
           "Unexpected error during server installation: " +:+ str_exn e in
         _ ← logger ERROR error_msg;
         throw ServerInstallationError error_msg) ].

End Install.
Global Arguments methods : clear implicits.

End Pipeline.

(** ** Plain release versions

    An instance of [Packaging] for the versions made of numbers and dots
    ([1.9], [1.10.2]), where [packaging] compares the release numbers in
    order and pads the shorter one with zeros.  Everything else is
    rejected here. *)

Module Dotted.

Fixpoint split_dots (cur : list ascii) (l : list ascii) : list (list ascii) :=
  match l with
  | [] => [rev cur]
  | c :: l' =>
      if bool_decide (c = "."%char) then rev cur :: split_dots [] l'
      else split_dots (c :: cur) l'
  end.

Definition number (l : list ascii) : option N :=
  match l with
  | [] => None
  | _ =>
      if forallb PyStr.is_digit l then
        Some (foldl (λ acc c, (10 * acc + N.of_nat (nat_of_ascii c - 48))%N) 0%N l)
      else None
  end.

Fixpoint numbers (parts : list (list ascii)) : option (list N) :=
  match parts with
  | [] => Some []
  | p :: rest =>
      match number p, numbers rest with
      | Some n, Some ns => Some (n :: ns)
      | _, _ => None
      end
  end.

Definition parse (s : string) : res (list N) :=
  match numbers (split_dots [] (PyStr.chars s)) with
  | Some ns => Ok ns
  | None => raise ValueError ("Invalid version: '" +:+ s +:+ "'")
  end.

Fixpoint compare (a b : list N) : comparison :=
  match a, b with
  | [], _ => if forallb (N.eqb 0) b then Eq else Lt
  | _, [] => if forallb (N.eqb 0) a then Eq else Gt
  | x :: a', y :: b' => match (x ?= y)%N with Eq => compare a' b' | c => c end
  end.

Definition eqb (a b : list N) : bool :=
  match compare a b with Eq => true | _ => false end.

Definition ltb (a b : list N) : bool :=
  match compare a b with Lt => true | _ => false end.

Definition packaging : Packaging :=
  {| pver := list N; version_parse := parse; pver_eqb := eqb; pver_ltb := ltb |}.

End Dotted.

(** * Vocabulary of the statements

    The predicates and sample values that the theorems below are stated
    with. *)

(** Unfolding the two monads. *)
Ltac msimpl :=
  repeat (unfold mbind, M_bind, res_bind, mret, M_ret, res_ret, get_state,
            modify_state, put_state, throw, lift_res, raise, try_catch,
            try_catch_all, try_except in *;
          simpl in * ).

(** A run that ended in an exception cannot be the successful run of the
    hypothesis [H]. *)
Ltac dead H := simpl in H; repeat case_match; discriminate.

Module PathSpec.
Import Paths.

(** Every entry of the filesystem sits in a directory. *)
Definition well_formed (f : fs) : Prop :=
  map_Forall (λ k _, k = [] ∨ is_dir f (removelast k) = true) f.

Global Instance well_formed_dec f : Decision (well_formed f).
Proof. unfold well_formed. apply _. Defined.

(** The same, entry by entry. *)
Definition tree_like (f : fs) : Prop :=
  ∀ p c, is_Some (f !! (p ++ [c])) → is_dir f p = true.

(** A component after [sanitize_path_component]. *)
Definition sanitized (component : string) : string :=
  PyStr.of_chars (filter (λ c, word_char c) (PyStr.chars component)).

(** The servers root: [~/minecraft_servers]. *)
Definition servers_root (h : host) : path := path_join (home h) "minecraft_servers".

(** The directory name of instance [i]: no suffix for instance [0]. *)
Definition instance_name (server_type version : string) (i : Z) : string :=
  if i =? 0 then sanitized server_type +:+ "-" +:+ sanitized version
  else sanitized server_type +:+ "-" +:+ sanitized version +:+ "-" +:+ pretty i.

Definition candidate (h : host) (server_type version : string) (i : Z) : path :=
  path_join (servers_root h) (instance_name server_type version i).

(** The directory does not exist, or exists and is empty. *)
Definition available (f : fs) (p : path) : bool :=
  match node_at f p with
  | None => true
  | Some (Directory _) => negb (has_entries f p)
  | Some RegularFile => false
  end.

(** The filesystem once [p] has been handed out: created with mode
    [0o755] unless it was there. *)
Definition handed_out (f : fs) (p : path) : fs :=
  match f !! p with
  | None => <[p := Directory o755]> f
  | Some _ => f
  end.

(** One turn of the loop of [find_available_server_directory]. *)
Definition turn (h : host) (server_type version : string) (i : Z)
    : M fs (option path) :=
  try_catch
    (server_dir ← get_server_directory h server_type version i;
     f ← get_state;
     if negb (has_entries f server_dir) then mret (Some server_dir) else mret None)
    [PathValidationError]
    (λ _, mret None).

(** No symbolic link below the servers root: such paths are canonical. *)
Definition symlink_free (h : host) : Prop :=
  ∀ p, servers_root h `prefix_of` p → resolve h p = Ok p.

(** A host without symbolic links at all, the home directory [/home/u]. *)
Definition plain_host : host := mk_host ["home"; "u"] (λ p, Ok p).

(** The servers directory of [plain_host] with one Paper installation in it. *)
Definition one_install : fs :=
  <[ ["home"; "u"; "minecraft_servers"; "paper-1.21"; "server.properties"] := RegularFile ]>
  (<[ ["home"; "u"; "minecraft_servers"; "paper-1.21"] := Directory o755 ]>
  (<[ ["home"; "u"; "minecraft_servers"] := Directory o755 ]>
  (<[ ["home"; "u"] := Directory o755 ]>
  (<[ ["home"] := Directory o755 ]> ∅)))).

End PathSpec.

Module ApiSpec.
Import Http Api.

(** A reply that makes the fetch fail: no connection, a fault of the
    library, an error status, or a payload that is not JSON. *)
Definition failed (r : http_reply) : Prop :=
  match r with
  | NoConnection _ | Faulty _ => True
  | Reply status body => (400 ≤ status < 600) ∨ body = None
  end.

(** Whatever is requested next, the fetch fails. *)
Definition next_fetch_fails (s : api_state) : Prop :=
  ∀ url, failed (respond (wire s) (length (sent (wire s))) url).

(** The version-list and build-list calls of the three resolvers. *)
Definition listing_calls (version : string) : list (M api_state pyval) :=
  [ PaperAPI.get_available_versions;
    PaperAPI.get_builds version;
    LeafAPI.get_available_versions;
    LeafAPI.get_builds version;
    MinecraftVersionAPI.get_vanilla_versions ].

(** The cache of a client, when it has one. *)
Definition cache_of (s : api_state) : gmap string pyval :=
  match attrs s !! "_cache" with
  | Some (ACache c) => c
  | _ => ∅
  end.

(** A network that is down for the first request of the process and up
    from then on, serving the Paper document of version 1.21. *)
Definition paper_1_21 : pyval :=
  PDict [("version", PStr "1.21"); ("builds", PList [PInt 1; PInt 2])].

Definition recovering : net :=
  mk_net (λ n url, match n with
                   | O => NoConnection "Connection timed out"
                   | S _ => Reply 200 (Some paper_1_21)
                   end) [].

(** Mojang's manifest with the release 1.20.4, and its detail document
    with the server download. *)
Definition manifest : pyval :=
  PDict [("versions",
          PList [PDict [("id", PStr "1.20.4"); ("type", PStr "release");
                        ("url", PStr "https://piston-meta.mojang.com/1.20.4.json")]])].

Definition detail : pyval :=
  PDict [("downloads",
          PDict [("server",
                  PDict [("url", PStr "https://piston-data.mojang.com/server.jar")])]);
         ("javaVersion", PDict [("majorVersion", PInt 17)])].

Definition mojang : net :=
  mk_net (λ _ url,
            if bool_decide (url = MOJANG_MANIFEST_URL) then Reply 200 (Some manifest)
            else if bool_decide (url = "https://piston-meta.mojang.com/1.20.4.json")
                 then Reply 200 (Some detail)
                 else Reply 404 None) [].

(** A client after [BaseHTTPClient.__init__]: [timeout] is set, and
    [_session] is [None] or the session that the [session] property made. *)
Definition initialised (s : api_state) : Prop :=
  is_Some (attrs s !! "timeout")
  ∧ (attrs s !! "_session" = Some ANone ∨ attrs s !! "_session" = Some ASession).

(** The reply that the next request gets, if it is for [url]. *)
Definition next_reply (s : api_state) (url : string) : http_reply :=
  respond (wire s) (length (sent (wire s))) url.

End ApiSpec.

Module DownloadSpec.
Import Download.

(** The running sums of the chunk lengths, on top of [start]. *)
Fixpoint running_sums (start : Z) (todo : list (list byte)) : list Z :=
  match todo with
  | [] => []
  | chunk :: rest =>
      let downloaded := start + Z.of_nat (length chunk) in
      downloaded :: running_sums downloaded rest
  end.

(** [total_size] as [download_file] reads it off a response. *)
Definition declared_total (response : stream) : Z :=
  match length_header response with
  | Length n => n
  | _ => 0
  end.

(** The bytes of a file on disk. *)
Definition written (s : dl_state) (destination : string) : list byte :=
  default [] (files (store s) !! destination).

(** The calls that the callback receives for a response. *)
Definition expected_calls (has_callback : bool) (response : stream)
    : list (Z * Z) :=
  if has_callback && (0 <? declared_total response)
  then map (λ downloaded, (downloaded, declared_total response))
           (running_sums 0 (chunks response))
  else [].

(** A server that sends 1000 bytes in chunks of 250 and declares the
    length. *)
Definition thousand_bytes : string → Z → stream := λ _ _,
  mk_stream None 200 (Length 1000) (replicate 4 (replicate 250 x00)) None.

Definition empty_disk : dl_state :=
  mk_dl (mk_disk ∅ (λ _, true) None) [].

End DownloadSpec.

Module ServerSpec.
Import Paths Constants Servers.

(** The arguments that [BaseServer.__init__] accepts. *)
Definition acceptable (version : string) (ram_allocation server_port : Z) : Prop :=
  PyStr.strip version ≠ ""
  ∧ MIN_RAM_MB ≤ ram_allocation ≤ MAX_RAM_MB
  ∧ MIN_PORT ≤ server_port ≤ MAX_PORT.


Definition static_kind (k : kind) : Prop := k = Vanilla ∨ k = Spigot ∨ k = Forge.

Definition build_kind (k : kind) : Prop := k = Paper ∨ k = Leaf.

(** The message of the version check. *)
Definition unsupported (k : kind) (version : string) : exn :=
  mk_exn UnsupportedVersionError
    ("Version " +:+ version +:+ " is not supported for " +:+ server_type k).

(** What a call on [self._api] raises while [_api] is [None]. *)
Definition none_has_no (name : string) : exn :=
  mk_exn AttributeError ("'NoneType' object has no attribute '" +:+ name +:+ "'").

(** A machine without symbolic links, outside any event loop, and a world
    with an empty disk and no traffic. *)
Definition plain_machine : machine := mk_machine PathSpec.plain_host Idle.
Definition fresh : world := mk_world ∅ [].

(** A resolver whose project queries answer with fixed lists and leave a
    trace in the traffic. *)
Definition canned (versions : list string) (builds : list Z) : api_handle :=
  let answer {A} (what : string) (a : A) : M world A :=
    λ w, (Ok a, mk_world (dirs w) (traffic w ++ [what])) in
  {| get_vanilla_versions := answer "vanilla versions" versions;
     get_server_jar_url := λ v, answer ("vanilla url " +:+ v) None;
     get_paper_versions := answer "paper versions" versions;
     get_paper_builds := λ v, answer ("paper builds " +:+ v) builds;
     get_paper_download_url := λ v b, mret ("paper/" +:+ v);
     get_leaf_versions := answer "leaf versions" versions;
     get_leaf_builds := λ v, answer ("leaf builds " +:+ v) builds;
     get_leaf_download_url := λ v b, mret ("leaf/" +:+ v) |}.

(** A download manager that fetches whatever it is asked for. *)
Definition obliging : download_handle :=
  {| download_file := λ url destination _ w,
       (Ok true, mk_world (dirs w) (traffic w ++ [url])) |}.

(** A Leaf server after [__aenter__], with no build chosen. *)
Definition leaf_server (version : string) (a : api_handle) : server :=
  mk_server Leaf version 2048 25565 (Some ["srv"]) (Some a) (Some obliging)
    None None None.

(** A Paper server after [__aenter__], with no build chosen. *)
Definition paper_server (version : string) (a : api_handle) : server :=
  mk_server Paper version 2048 25565 (Some ["srv"]) (Some a) (Some obliging)
    None None None.

(** [PaperServer.download_server_jar] or [LeafServer.download_server_jar],
    by the kind of the object. *)
Definition acquire `{Packaging} (mc : machine) (has_callback : bool) : M st bool :=
  λ s, match kind_of (self s) with
       | Leaf => Leaf_download_server_jar mc has_callback s
       | _ => Paper_download_server_jar mc has_callback s
       end.

(** Acquisition goes through [ensure_build_selected]: always for Paper,
    for Leaf unless the version is a direct download. *)
Definition resolves_build `{Packaging} (o : server) : bool :=
  match kind_of o with
  | Leaf => negb (is_direct_download_version o)
  | _ => true
  end.

(** A computation that leaves the [build] attribute as it finds it,
    whether it returns or raises. *)
Definition keeps_build {A} (m : M st A) : Prop :=
  ∀ s r s', m s = (r, s') → build (self s') = build (self s).

(** The first character of a string is a decimal digit. *)
Definition starts_with_digit (s : string) : Prop :=
  match s with
  | String c _ => PyStr.is_digit c = true
  | EmptyString => False
  end.

End ServerSpec.

Module PipelineSpec.
Import Paths Pipeline.

(** Every step of the list returns [True], one after the other, and takes
    [w] to [w']. *)
Fixpoint all_succeed {W} (steps : list (M W bool)) (w w' : W) : Prop :=
  match steps with
  | [] => w' = w
  | step :: rest => ∃ w1, step w = (Ok true, w1) ∧ all_succeed rest w1 w'
  end.

(** The fixed sequence, by the names that [install] gives the steps. *)
Definition step_names : list string :=
  [ "Java installation"; "Server jar download"; "Server properties creation";
    "Start script creation"; "EULA file creation" ].

(** The records that the pipeline logs around a step. *)
Definition started (name : string) : level * string :=
  (DEBUG, "Starting step: " +:+ name).

Definition completed (name : string) : level * string :=
  (DEBUG, "Completed step: " +:+ name).

Definition passed (name : string) : list (level * string) :=
  [started name; completed name].

Definition failure_message (name : string) : string :=
  "Installation failed at step '" +:+ name +:+ "'".

(** The message of the error that [install] raises for a step: the step
    and the cause. *)
Definition wrapped (name cause : string) : string :=
  "Installation failed at step '" +:+ name +:+ "': " +:+ cause.

Definition announced {W} (m : methods W) (dir : path) : level * string :=
  (INFO, "Installing " +:+ server_type m +:+ " " +:+ version m +:+ " to "
         +:+ str_path dir).

Definition finished {W} (m : methods W) : level * string :=
  (INFO, "Successfully installed " +:+ server_type m +:+ " " +:+ version m).

(** A server whose steps only write their name into a journal; the start
    script cannot be written. *)
Definition note (name : string) (result : bool) : M (list string) bool :=
  λ w, (Ok result, w ++ [name]).

Definition journalling : methods (list string) :=
  {| server_type := "vanilla";
     version := "1.21";
     install_directory := mret ["srv"];
     has_download_manager := λ _, true;
     ensure_java_installation := note "java" true;
     download_server_jar := λ _, note "jar" true;
     create_server_properties := note "properties" true;
     create_start_script := note "script" false;
     create_eula_file := note "eula" true |}.

End PipelineSpec.

Module ValidationSpec.
Import Paths Constants Validation.

(** The system directories behind [FORBIDDEN_SYSTEM_PATHS]. *)
Definition system_directories : list path :=
  [ ["etc"]; ["usr"]; ["var"]; ["boot"]; ["sys"]; ["proc"]; ["dev"] ].


End ValidationSpec.


(** * Facts about the path allocator *)

Module PathFacts.
Import Paths PathSpec.

Lemma well_formed_tree_like (f : fs) : well_formed f → tree_like f.
Proof.
  intros Hwf p c [x Hx]. destruct (Hwf _ _ Hx) as [E|E].
  - by destruct p.
  - by rewrite removelast_last in E.
Qed.

Lemma node_at_snoc (f : fs) p c : node_at f (p ++ [c]) = f !! (p ++ [c]).
Proof. unfold node_at. destruct p; reflexivity. Qed.

Lemma is_dir_snoc_parent (f : fs) p c :
  tree_like f → is_dir f (p ++ [c]) = true → is_dir f p = true.
Proof.
  intros Hwf Hd. apply (Hwf p c). unfold is_dir in Hd. rewrite node_at_snoc in Hd.
  destruct (f !! (p ++ [c])); [eauto | discriminate].
Qed.

Lemma is_dir_prefix (f : fs) a : ∀ pre,
  tree_like f → is_dir f (pre ++ a) = true → is_dir f pre = true.
Proof.
  induction a as [|c a IH] using rev_ind; intros pre Hwf Hd.
  - by rewrite app_nil_r in Hd.
  - rewrite app_assoc in Hd. apply is_dir_snoc_parent in Hd; auto.
Qed.

Lemma mkdir_walk_existing (mode : Z) (f : fs) : ∀ a pre b,
  tree_like f → is_dir f (pre ++ a) = true →
  mkdir_walk mode pre (a ++ b) f = mkdir_walk mode (pre ++ a) b f.
Proof.
  induction a as [|c a IH]; intros pre b Hwf Hd.
  - by rewrite app_nil_r.
  - simpl. msimpl. unfold path_join.
    assert (Hc : is_dir f (pre ++ [c]) = true).
    { apply (is_dir_prefix f a); auto. by rewrite <- app_assoc. }
    unfold is_dir in Hc. destruct (node_at f (pre ++ [c])) as [[m|]|] eqn:E; try discriminate.
    rewrite IH; auto.
    + by rewrite <- app_assoc.
    + by rewrite <- app_assoc.
Qed.

Lemma mkdir_parents_existing (mode : Z) (f : fs) p :
  tree_like f → is_dir f p = true → mkdir_parents mode p f = (Ok (), f).
Proof.
  intros Hwf Hd. unfold mkdir_parents.
  rewrite <- (app_nil_r p) at 1. rewrite mkdir_walk_existing; auto.
Qed.

Lemma is_dir_insert_dir (f : fs) p q m :
  is_dir f q = true → is_dir (<[p := Directory m]> f) q = true.
Proof.
  unfold is_dir, node_at. destruct q as [|c q]; [done|].
  destruct (decide (p = c :: q)) as [->|Hne].
  - by rewrite lookup_insert_eq.
  - by rewrite lookup_insert_ne.
Qed.

Lemma tree_like_insert_dir (f : fs) d c m :
  tree_like f → is_dir f d = true → tree_like (<[d ++ [c] := Directory m]> f).
Proof.
  intros Hwf Hd q c' [x Hx].
  destruct (decide (d ++ [c] = q ++ [c'])) as [E|Hne].
  - apply app_inj_tail in E as [-> _]. by apply is_dir_insert_dir.
  - rewrite lookup_insert_ne in Hx by done.
    apply is_dir_insert_dir. apply (Hwf q c'). eauto.
Qed.

Lemma mkdir_walk_ok (mode : Z) : ∀ rest pre (f f' : fs),
  tree_like f → is_dir f pre = true →
  mkdir_walk mode pre rest f = (Ok (), f') →
  tree_like f' ∧ is_dir f' (pre ++ rest) = true.
Proof.
  induction rest as [|c rest IH]; intros pre f f' Hwf Hd Hrun.
  - simpl in Hrun. msimpl. injection Hrun as <-. by rewrite app_nil_r.
  - simpl in Hrun. msimpl. unfold path_join in Hrun.
    replace (pre ++ c :: rest) with ((pre ++ [c]) ++ rest) by by rewrite <- app_assoc.
    destruct (node_at f (pre ++ [c])) as [[m|]|] eqn:E.
    + apply (IH _ f); auto. unfold is_dir. by rewrite E.
    + discriminate.
    + eapply IH; [| |exact Hrun].
      * by apply tree_like_insert_dir.
      * unfold is_dir. rewrite node_at_snoc. by rewrite lookup_insert_eq.
Qed.

Lemma exists_of_is_dir (f : fs) p : is_dir f p = true → exists_ f p = true.
Proof.
  unfold is_dir, exists_. destruct (node_at f p) as [[?|]|]; try discriminate.
  intros _. apply bool_decide_eq_true. eauto.
Qed.

Lemma create_safe_directory_inv (f f' : fs) p q mode :
  create_safe_directory p mode f = (Ok q, f') →
  q = p ∧ mkdir_parents mode p f = (Ok (), f').
Proof.
  unfold create_safe_directory. msimpl.
  destruct (mkdir_parents mode p f) as [[[]|e] f''].
  - destruct (negb (exists_ f'' p) || negb (is_dir f'' p)); simpl.
    + discriminate.
    + intros [= ? ?]; by subst.
  - destruct (catches [OSError] e); discriminate.
Qed.

Lemma create_safe_directory_existing (f : fs) p mode :
  tree_like f → is_dir f p = true → create_safe_directory p mode f = (Ok p, f).
Proof.
  intros Hwf Hd. unfold create_safe_directory. msimpl.
  rewrite mkdir_parents_existing by done.
  by rewrite Hd, (exists_of_is_dir _ _ Hd).
Qed.

Lemma mkdir_parents_leaf (f : fs) d n mode :
  tree_like f → is_dir f d = true →
  mkdir_parents mode (d ++ [n]) f =
    match f !! (d ++ [n]) with
    | None => (Ok (), <[d ++ [n] := Directory mode]> f)
    | Some (Directory _) => (Ok (), f)
    | Some RegularFile => (Raise (mk_exn OSError "File exists"), f)
    end.
Proof.
  intros Hwf Hd. unfold mkdir_parents.
  rewrite (mkdir_walk_existing mode f d [] [n]) by done.
  simpl. msimpl. unfold path_join. rewrite node_at_snoc.
  destruct (f !! (d ++ [n])) as [[m|]|]; done.
Qed.

Lemma create_safe_directory_leaf (f : fs) d n mode :
  tree_like f → is_dir f d = true →
  create_safe_directory (d ++ [n]) mode f =
    match f !! (d ++ [n]) with
    | None => (Ok (d ++ [n]), <[d ++ [n] := Directory mode]> f)
    | Some (Directory _) => (Ok (d ++ [n]), f)
    | Some RegularFile =>
        (Raise (mk_exn PathValidationError
                  ("Cannot create directory " +:+ str_path (d ++ [n]) +:+ ": File exists")),
         f)
    end.
Proof.
  intros Hwf Hd. unfold create_safe_directory. msimpl.
  rewrite mkdir_parents_leaf by done.
  destruct (f !! (d ++ [n])) as [[m|]|] eqn:E.
  - assert (Hi : is_dir f (d ++ [n]) = true).
    { unfold is_dir. rewrite node_at_snoc. by rewrite E. }
    by rewrite Hi, (exists_of_is_dir _ _ Hi).
  - done.
  - assert (Hi : is_dir (<[d ++ [n] := Directory mode]> f) (d ++ [n]) = true).
    { unfold is_dir. rewrite node_at_snoc. by rewrite lookup_insert_eq. }
    by rewrite Hi, (exists_of_is_dir _ _ Hi).
Qed.

Lemma child_of_snoc p k : child_of p k → ∃ c, k = p ++ [c].
Proof.
  intros [[r ->] Hlen]. rewrite length_app in Hlen.
  destruct r as [|c [|c' r]]; simpl in Hlen; try lia. eauto.
Qed.

Lemma has_entries_fresh (f : fs) d n x :
  tree_like f → f !! (d ++ [n]) = None →
  has_entries (<[d ++ [n] := x]> f) (d ++ [n]) = false.
Proof.
  intros Hwf Hnone. unfold has_entries. apply bool_decide_eq_false.
  intros (k & v & Hk & Hchild).
  destruct (child_of_snoc _ _ Hchild) as [c ->].
  rewrite lookup_insert_ne in Hk.
  - assert (Hd : is_dir f (d ++ [n]) = true) by (apply (Hwf _ c); eauto).
    unfold is_dir in Hd. rewrite node_at_snoc, Hnone in Hd. discriminate.
  - intros E. apply (f_equal length) in E. rewrite !length_app in E. simpl in E. lia.
Qed.

Lemma name_char_word_char c : name_char c = true → word_char c = true.
Proof.
  unfold name_char, word_char.
  destruct (PyStr.is_alnum c), (bool_decide (c = "."%char)),
    (bool_decide (c = "_"%char)), (bool_decide (c = "-"%char)); done.
Qed.

Lemma filter_all_true {A} (P : A → bool) (l : list A) :
  forallb P l = true → filter (λ c, P c) l = l.
Proof.
  induction l as [|x l IH]; [done|]. simpl. intros [Hx Hl]%andb_true_iff.
  rewrite filter_cons. rewrite decide_True by by rewrite Hx.
  by rewrite IH.
Qed.

Lemma match_name_pattern_keeps (name : string) :
  match_name_pattern name = true →
  filter (λ c, word_char c) (PyStr.chars name) ≠ [].
Proof.
  unfold match_name_pattern. set (cs := PyStr.chars name).
  intros [Hne Hall]%andb_true_iff.
  apply negb_true_iff, bool_decide_eq_false in Hne.
  assert (Hw : ∀ body, forallb name_char body = true → forallb word_char body = true).
  { intros body. rewrite !forallb_forall. intros H x Hx. apply name_char_word_char; auto. }
  destruct (last cs) as [c|] eqn:El.
  - apply last_Some in El as [l' El]. rewrite El in *.
    destruct (bool_decide (c = PyStr.newline)).
    + rewrite removelast_last in Hne, Hall.
      rewrite filter_app. rewrite (filter_all_true word_char l') by auto.
      intros E. apply app_eq_nil in E as [? _]. done.
    + rewrite (filter_all_true word_char) by auto. done.
  - rewrite (filter_all_true word_char) by auto. done.
Qed.

Lemma of_chars_nil l : PyStr.of_chars l = "" → l = [].
Proof. destruct l; [done|discriminate]. Qed.

Lemma sanitize_valid (component : string) :
  validate_server_name component = true →
  sanitize_path_component component = Ok (sanitized component).
Proof.
  intros Hv. unfold sanitize_path_component. rewrite Hv. simpl.
  fold (sanitized component).
  rewrite bool_decide_eq_false_2; [done|].
  intros E. apply of_chars_nil in E. revert E. apply match_name_pattern_keeps.
  unfold validate_server_name in Hv.
  destruct (bool_decide (component = "")); [discriminate|].
  destruct (match_name_pattern component); [done|discriminate].
Qed.

(** Rendering and the prefix test. *)
Lemma string_app_cons c (s t : string) : String c s +:+ t = String c (s +:+ t).
Proof. reflexivity. Qed.

Lemma string_app_nil (t : string) : "" +:+ t = t.
Proof. reflexivity. Qed.

Lemma string_prefix_app (s t : string) : String.prefix s (s +:+ t) = true.
Proof.
  induction s as [|c s IH].
  - rewrite string_app_nil. by destruct t.
  - rewrite string_app_cons. simpl.
    destruct (Ascii.ascii_dec c c); [exact IH|done].
Qed.

Lemma string_app_assoc (a b c : string) : (a +:+ b) +:+ c = a +:+ (b +:+ c).
Proof.
  induction a as [|x a IH].
  - by rewrite !string_app_nil.
  - rewrite !string_app_cons. by rewrite IH.
Qed.

Lemma render_app p q : render (p ++ q) = render p +:+ render q.
Proof.
  induction p as [|c p IH]; [done|].
  change (render ((c :: p) ++ q)) with ("/" +:+ c +:+ render (p ++ q)).
  change (render (c :: p)) with ("/" +:+ c +:+ render p).
  rewrite IH. by rewrite !string_app_assoc.
Qed.

Lemma str_path_child_startswith p n :
  p ≠ [] → PyStr.startswith (str_path (p ++ [n])) (str_path p) = true.
Proof.
  intros Hp. unfold PyStr.startswith, str_path.
  destruct p as [|c p]; [done|].
  change ((c :: p) ++ [n]) with (c :: (p ++ [n])).
  cbv iota. change (c :: (p ++ [n])) with ((c :: p) ++ [n]).
  rewrite render_app. apply string_prefix_app.
Qed.

Section Allocation.
Variable h : host.
Variables server_type version : string.
Variable f1 : fs.
Hypothesis Htype : validate_server_name server_type = true.
Hypothesis Hversion : validate_server_name version = true.
Hypothesis Hfree : symlink_free h.
Hypothesis Hwf : tree_like f1.
Hypothesis Hroot : is_dir f1 (servers_root h) = true.

Lemma validate_in_servers_root n :
  validate_and_resolve_path h (path_join (servers_root h) n) (servers_root h)
  = Ok (path_join (servers_root h) n).
Proof.
  unfold validate_and_resolve_path, path_join.
  rewrite (Hfree (servers_root h ++ [n])) by by apply prefix_app_r.
  rewrite (Hfree (servers_root h)) by done.
  simpl. rewrite str_path_child_startswith; [done|].
  unfold servers_root, path_join. by destruct (home h).
Qed.

Lemma get_servers_directory_settled :
  get_servers_directory h f1 = (Ok (servers_root h), f1).
Proof. apply create_safe_directory_existing; done. Qed.

Lemma get_server_directory_settled i :
  0 ≤ i ≤ 999 →
  get_server_directory h server_type version i f1
  = create_safe_directory (candidate h server_type version i) o755 f1.
Proof.
  intros Hi. unfold get_server_directory. rewrite Htype, Hversion. simpl.
  replace (i <? 0) with false by lia. replace (999 <? i) with false by lia. simpl.
  msimpl. rewrite get_servers_directory_settled.
  rewrite (sanitize_valid _ Htype), (sanitize_valid _ Hversion).
  fold (servers_root h). rewrite validate_in_servers_root. done.
Qed.

Lemma turn_spec i :
  0 ≤ i ≤ 999 →
  turn h server_type version i f1 =
    if available f1 (candidate h server_type version i)
    then (Ok (Some (candidate h server_type version i)),
          handed_out f1 (candidate h server_type version i))
    else (Ok None, f1).
Proof.
  intros Hi. unfold turn. msimpl. rewrite get_server_directory_settled by done.
  unfold candidate, path_join, available, handed_out.
  rewrite create_safe_directory_leaf by done. rewrite node_at_snoc.
  destruct (f1 !! (servers_root h ++ [instance_name server_type version i]))
    as [[m|]|] eqn:E.
  - by destruct (has_entries f1 _).
  - done.
  - by rewrite has_entries_fresh.
Qed.

Lemma find_loop_turn todo i f :
  find_loop h server_type version (S todo) i f =
    match turn h server_type version i f with
    | (Ok (Some d), f') => (Ok d, f')
    | (Ok None, f') => find_loop h server_type version todo (i + 1) f'
    | (Raise e, f') => (Raise e, f')
    end.
Proof.
  unfold turn. simpl. msimpl.
  destruct (get_server_directory h server_type version i f) as [[d|e] f'].
  - by destruct (negb (has_entries f' d)).
  - by destruct (catches [PathValidationError] e).
Qed.

Lemma find_loop_found : ∀ (n : nat) (todo : nat) (i : Z),
  0 ≤ i → i + Z.of_nat n ≤ 999 → (n < todo)%nat →
  (∀ j, i ≤ j < i + Z.of_nat n →
        available f1 (candidate h server_type version j) = false) →
  available f1 (candidate h server_type version (i + Z.of_nat n)) = true →
  find_loop h server_type version todo i f1 =
    (Ok (candidate h server_type version (i + Z.of_nat n)),
     handed_out f1 (candidate h server_type version (i + Z.of_nat n))).
Proof.
  induction n as [|n IH]; intros todo i Hi Hmax Htodo Hbusy Hfree_n;
    (destruct todo as [|todo]; [lia|]); rewrite find_loop_turn, turn_spec by lia.
  - rewrite Z.add_0_r in Hfree_n |- *. by rewrite Hfree_n.
  - rewrite Hbusy by lia.
    replace (i + Z.of_nat (S n)) with ((i + 1) + Z.of_nat n) in * by lia.
    apply IH; try lia; auto. intros j Hj. apply Hbusy. lia.
Qed.

Lemma find_loop_exhausted : ∀ (todo : nat) (i : Z),
  0 ≤ i → i + Z.of_nat todo ≤ 1000 →
  (∀ j, i ≤ j < i + Z.of_nat todo →
        available f1 (candidate h server_type version j) = false) →
  find_loop h server_type version todo i f1 =
    (Raise (mk_exn PathValidationError
              "Unable to find available directory after 1000 attempts"), f1).
Proof.
  induction todo as [|todo IH]; intros i Hi Hmax Hbusy.
  - done.
  - rewrite find_loop_turn, turn_spec by lia. rewrite Hbusy by lia.
    apply IH; try lia. intros j Hj. apply Hbusy. lia.
Qed.

End Allocation.

Lemma mkdir_walk_frame (mode : Z) : ∀ rest pre (f f' : fs) r,
  mkdir_walk mode pre rest f = (r, f') →
  ∀ k, ¬ k `prefix_of` (pre ++ rest) → f' !! k = f !! k.
Proof.
  induction rest as [|c rest IH]; intros pre f f' r Hrun k Hk.
  - simpl in Hrun. msimpl. by injection Hrun as _ <-.
  - simpl in Hrun. msimpl. unfold path_join in Hrun.
    assert (Hk' : ¬ k `prefix_of` (pre ++ [c]) ++ rest) by by rewrite <- app_assoc.
    destruct (node_at f (pre ++ [c])) as [[m|]|] eqn:E.
    + by apply (IH _ _ _ _ Hrun).
    + by injection Hrun as _ <-.
    + rewrite (IH _ _ _ _ Hrun) by done.
      apply lookup_insert_ne. intros <-. apply Hk'. by apply prefix_app_r.
Qed.

Lemma available_frame (f f' : fs) p :
  p ≠ [] → (∀ k, p `prefix_of` k → f' !! k = f !! k) →
  available f' p = available f p.
Proof.
  intros Hp Hsame. unfold available.
  assert (Hn : node_at f' p = node_at f p).
  { destruct p; [done|]. simpl. by apply Hsame. }
  rewrite Hn. destruct (node_at f p) as [[m|]|]; [|done..].
  f_equal. unfold has_entries. apply bool_decide_ext.
  split; intros (k & v & Hk & Hc); exists k, v; (split; [|done]).
  - rewrite <- Hsame; [done|]. apply Hc.
  - rewrite Hsame; [done|]. apply Hc.
Qed.

Lemma root_is_dir (f : fs) : is_dir f [] = true.
Proof. reflexivity. Qed.

(** C9: directory allocation.  On a host without symbolic links in the
    servers root, where the servers root [~/minecraft_servers] exists or can be
    created ([f1] is the filesystem once it has been), and for a valid
    server type and version: instance [0] is named [{kind}-{version}]
    (both sanitized) and instance [i > 0] carries the suffix [-{i}];
    [find_available_server_directory] returns the candidate of the first
    instance in [0..999] that does not exist or is an empty directory, and
    leaves it created with mode [0o755]; when none of the 1000 instances
    is available it raises [PathValidationError]. *)
Theorem allocation_scans_instances (h : host) (server_type version : string)
    (f f1 : fs) :
  validate_server_name server_type = true →
  validate_server_name version = true →
  symlink_free h →
  well_formed f →
  get_servers_directory h f = (Ok (servers_root h), f1) →
  instance_name server_type version 0
    = sanitized server_type +:+ "-" +:+ sanitized version
  ∧ (∀ i, i ≠ 0 →
       instance_name server_type version i
       = sanitized server_type +:+ "-" +:+ sanitized version +:+ "-" +:+ pretty i)
  ∧ (∀ i, 0 ≤ i ≤ 999 →
       (∀ j, 0 ≤ j < i → available f (candidate h server_type version j) = false) →
       available f (candidate h server_type version i) = true →
       find_available_server_directory h server_type version f
       = (Ok (candidate h server_type version i),
          handed_out f1 (candidate h server_type version i)))
  ∧ ((∀ j, 0 ≤ j ≤ 999 → available f (candidate h server_type version j) = false) →
       find_available_server_directory h server_type version f
       = (Raise (mk_exn PathValidationError
                   "Unable to find available directory after 1000 attempts"), f1)).
Proof.
  intros Htype Hversion Hfree Hwf%well_formed_tree_like Hroot.
  destruct (create_safe_directory_inv _ _ _ _ _ Hroot) as [_ Hmk].
  destruct (mkdir_walk_ok _ _ _ _ _ Hwf (root_is_dir f) Hmk) as [Hwf1 Hdir1].
  assert (Hsame : ∀ j, available f1 (candidate h server_type version j)
                       = available f (candidate h server_type version j)).
  { intros j. apply available_frame.
    - unfold candidate, path_join. by destruct (servers_root h).
    - intros k Hk. apply (mkdir_walk_frame _ _ _ _ _ _ Hmk).
      rewrite app_nil_l. intros Hpre. unfold candidate, path_join in Hk.
      pose proof (prefix_length _ _ Hk) as L1. pose proof (prefix_length _ _ Hpre) as L2.
      rewrite length_app in L1. simpl in L1. unfold servers_root in L1. lia. }
  assert (Hstart : ∀ todo,
    find_loop h server_type version (S todo) 0 f
    = find_loop h server_type version (S todo) 0 f1).
  { intros todo. rewrite !find_loop_turn. unfold turn. msimpl.
    unfold get_server_directory. rewrite Htype, Hversion. simpl. msimpl.
    rewrite Hroot. by rewrite get_servers_directory_settled. }
  unfold find_available_server_directory, max_instances.
  change (Z.to_nat 1000) with (S 999). rewrite Hstart.
  split; [done|]. split.
  { intros i Hi. unfold instance_name. by rewrite (proj2 (Z.eqb_neq i 0) Hi). }
  split.
  - intros i Hi Hbusy Havail.
    replace i with (0 + Z.of_nat (Z.to_nat i)) by lia.
    apply find_loop_found; try done; try lia.
    + intros j Hj. rewrite Hsame. apply Hbusy. lia.
    + rewrite Hsame. by replace (0 + Z.of_nat (Z.to_nat i)) with i by lia.
  - intros Hbusy. apply find_loop_exhausted; try done; try lia.
    intros j Hj. rewrite Hsame. apply Hbusy. lia.
Qed.


Lemma plain_host_symlink_free : symlink_free plain_host.
Proof. intros p _. reflexivity. Qed.

(** The servers directory holds [paper-1.21] with a file in it: the next Paper 1.21
    server goes to [paper-1.21-1]. *)
Lemma allocation_scans_instances_witness :
  find_available_server_directory plain_host "paper" "1.21" one_install
  = (Ok ["home"; "u"; "minecraft_servers"; "paper-1.21-1"],
     <[ ["home"; "u"; "minecraft_servers"; "paper-1.21-1"] := Directory o755 ]>
       one_install).
Proof.
  refine (proj1 (proj2 (proj2
    (allocation_scans_instances plain_host "paper" "1.21" one_install one_install
       _ _ plain_host_symlink_free _ _))) 1 _ _ _).
  - reflexivity.
  - reflexivity.
  - apply (bool_decide_unpack (well_formed one_install)). vm_compute. exact I.
  - vm_compute. reflexivity.
  - lia.
  - intros j Hj. replace j with 0 by lia. vm_compute. reflexivity.
  - vm_compute. reflexivity.
Defined.

(** The directory handed out for a valid type and version is a
    descendant of the servers root. *)
Lemma candidate_within_servers_root h server_type version i :
  within (servers_root h) (candidate h server_type version i).
Proof. unfold within, candidate, path_join. by apply prefix_app_r. Qed.

(** C1, the code at a failing input.  On a host without symbolic links,
    with home [/home/u]: the path [/home/u/minecraft_servers_evil/data]
    is not inside the servers root [/home/u/minecraft_servers], and
    [validate_and_resolve_path] returns it, because the test is on the
    characters of the two paths; in the same way a custom install
    directory [/home/u2/srv] passes for the parent [/home/u] and is
    created. *)
Theorem prefix_test_admits_sibling :
  let root := servers_root plain_host in
  let outside := ["home"; "u"; "minecraft_servers_evil"; "data"] in
  ¬ within root outside
  ∧ validate_and_resolve_path plain_host outside root = Ok outside
  ∧ ¬ within (home plain_host) ["home"; "u2"; "srv"]
  ∧ fst (validate_install_directory plain_host (Some ["home"; "u2"; "srv"]) ∅)
    = Ok (Some ["home"; "u2"; "srv"]).
Proof.
  split; [|split; [|split]].
  - intros [k Hk]. discriminate.
  - reflexivity.
  - intros [k Hk]. discriminate.
  - reflexivity.
Qed.

(** *** The validator and the directory primitives on their own *)

Lemma chars_of_chars l : PyStr.chars (PyStr.of_chars l) = l.
Proof. apply String.list_ascii_of_string_of_list_ascii. Qed.

Lemma of_chars_chars s : PyStr.of_chars (PyStr.chars s) = s.
Proof. apply String.string_of_list_ascii_of_string. Qed.

Lemma of_chars_app a b :
  PyStr.of_chars (a ++ b) = PyStr.of_chars a +:+ PyStr.of_chars b.
Proof.
  induction a as [|c a IH]; [done|].
  change (PyStr.of_chars ((c :: a) ++ b)) with (String c (PyStr.of_chars (a ++ b))).
  rewrite IH. reflexivity.
Qed.

(** X1: what [sanitize_path_component] hands back.  A component that it
    returns is not empty and is made of the characters [[A-Za-z0-9._-]]
    only; it is the input itself, or the input without the line feed that
    the pattern's [$] let through at its end.  The second error of the
    function, for a component that became empty, is never raised: a
    rejected component is always reported as invalid. *)
Theorem sanitized_component_shape (component : string) :
  (∀ s, sanitize_path_component component = Ok s →
     s ≠ ""
     ∧ forallb name_char (PyStr.chars s) = true
     ∧ (component = s ∨ component = s +:+ String PyStr.newline ""))
  ∧ (∀ e, sanitize_path_component component = Raise e →
     e = mk_exn PathValidationError ("Invalid path component: " +:+ component)).
Proof.
  destruct (validate_server_name component) eqn:Hv.
  - rewrite (sanitize_valid _ Hv). split; [|discriminate].
    intros s [= <-]. unfold sanitized.
    unfold validate_server_name in Hv.
    destruct (bool_decide (component = "")); [discriminate|].
    destruct (match_name_pattern component) eqn:Hm; [|discriminate].
    clear Hv. unfold match_name_pattern in Hm.
    assert (Hc : component = PyStr.of_chars (PyStr.chars component))
      by by rewrite of_chars_chars.
    remember (PyStr.chars component) as cs eqn:Ecs. clear Ecs.
    apply andb_true_iff in Hm as [Hne Hall].
    apply negb_true_iff, bool_decide_eq_false in Hne.
    destruct (last cs) as [c|] eqn:El.
    + apply last_Some in El as [l' El]. rewrite El in *.
      destruct (bool_decide (c = PyStr.newline)) eqn:Ec.
      * apply bool_decide_eq_true in Ec as ->.
        rewrite removelast_last in Hne, Hall.
        assert (Hf : filter (λ c, word_char c) (l' ++ [PyStr.newline]) = l').
        { rewrite filter_app.
          rewrite (filter_all_true word_char l'); [apply app_nil_r|].
          rewrite forallb_forall in Hall |- *.
          intros x Hx. apply name_char_word_char; auto. }
        rewrite Hf, chars_of_chars. split; [|split; [done|]].
        -- intros E. by apply of_chars_nil in E.
        -- right. by rewrite Hc, of_chars_app.
      * assert (Hf : filter (λ c, word_char c) (l' ++ [c]) = l' ++ [c]).
        { apply (filter_all_true word_char).
          rewrite forallb_forall in Hall |- *.
          intros x Hx. apply name_char_word_char; auto. }
        rewrite Hf, chars_of_chars. split; [|split; [done|by left]].
        intros E. apply of_chars_nil in E. by destruct l'.
    + apply last_None in El as ->. done.
  - unfold sanitize_path_component. rewrite Hv. simpl.
    split; [discriminate|]. by intros e [= <-].
Qed.

(** [mkdir] adds entries and changes none. *)
Lemma mkdir_walk_grows (mode : Z) : ∀ rest pre (f f' : fs) r,
  mkdir_walk mode pre rest f = (r, f') → f ⊆ f'.
Proof.
  induction rest as [|c rest IH]; intros pre f f' r Hrun.
  - simpl in Hrun. msimpl. by injection Hrun as _ <-.
  - simpl in Hrun. msimpl. unfold path_join in Hrun.
    destruct (node_at f (pre ++ [c])) as [[m|]|] eqn:E.
    + by apply (IH _ _ _ _ Hrun).
    + by injection Hrun as _ <-.
    + apply IH in Hrun. etrans; [|exact Hrun].
      apply insert_subseteq. by rewrite <- node_at_snoc.
Qed.


Lemma mkdir_walk_raises (mode : Z) : ∀ rest pre (f f' : fs) e,
  mkdir_walk mode pre rest f = (Raise e, f') → exn_cls e = OSError.
Proof.
  induction rest as [|c rest IH]; intros pre f f' e Hrun; [discriminate|].
  simpl in Hrun. msimpl.
  destruct (node_at f (path_join pre c)) as [[m|]|].
  - by apply (IH _ _ _ _ Hrun).
  - by injection Hrun as <- _.
  - by apply (IH _ _ _ _ Hrun).
Qed.

Lemma create_safe_directory_post (p : path) (mode : Z) (f f' : fs)
    (r : res path) :
  create_safe_directory p mode f = (r, f') →
  f ⊆ f'
  ∧ match r with
    | Ok q => q = p ∧ is_dir f' p = true
    | Raise e => exn_cls e = PathValidationError
    end.
Proof.
  unfold create_safe_directory, mkdir_parents. msimpl.
  destruct (mkdir_walk mode [] p f) as [[[]|e] f1] eqn:Ew.
  - apply mkdir_walk_grows in Ew.
    destruct (exists_ f1 p), (is_dir f1 p) eqn:Ed; simpl;
      intros [= <- <-]; done.
  - pose proof (mkdir_walk_raises _ _ _ _ _ _ Ew) as Hcls.
    apply mkdir_walk_grows in Ew.
    destruct e as [cls msg]. simpl in Hcls. subst cls.
    change (catches [OSError] (mk_exn OSError msg)) with true. cbv iota.
    by intros [= <- <-].
Qed.




Lemma get_server_directory_post (h : host) (server_type version : string)
    (i : Z) (f f' : fs) (r : res path) :
  get_server_directory h server_type version i f = (r, f') →
  f ⊆ f' ∧ (∀ d, r = Ok d → is_dir f' d = true).
Proof.
  unfold get_server_directory.
  destruct (negb (validate_server_name server_type));
    [by intros [= <- <-]|].
  destruct (negb (validate_server_name version)); [by intros [= <- <-]|].
  destruct ((i <? 0) || (999 <? i)); [by intros [= <- <-]|].
  unfold get_servers_directory. msimpl.
  destruct (create_safe_directory _ o755 f) as [[base|e] f1] eqn:E1;
    destruct (create_safe_directory_post _ _ _ _ _ E1) as [Hsub1 _];
    [|by intros [= <- <-]].
  destruct (sanitize_path_component server_type) as [st|e];
    [|by intros [= <- <-]].
  destruct (sanitize_path_component version) as [sv|e]; simpl;
    [|by intros [= <- <-]].
  destruct (validate_and_resolve_path h _ base) as [validated|e]; simpl;
    [|by intros [= <- <-]].
  intros E2. destruct (create_safe_directory_post _ _ _ _ _ E2) as [Hsub2 Hr].
  split; [by etrans|]. intros d ->. by destruct Hr as [-> ?].
Qed.

Lemma find_loop_post (h : host) (server_type version : string) :
  ∀ (todo : nat) (i : Z) (f f' : fs) (r : res path),
  find_loop h server_type version todo i f = (r, f') →
  f ⊆ f'
  ∧ (∀ d, r = Ok d → is_dir f' d = true ∧ has_entries f' d = false).
Proof.
  induction todo as [|todo IH]; intros i f f' r.
  - by intros [= <- <-].
  - rewrite find_loop_turn. unfold turn. msimpl.
    destruct (get_server_directory h server_type version i f) as [[d|e] f1] eqn:Eg;
      destruct (get_server_directory_post _ _ _ _ _ _ _ Eg) as [Hsub Hdir].
    + destruct (has_entries f1 d) eqn:Eh; simpl.
      * intros Hrun. apply IH in Hrun as [Hsub' Hr]. split; [by etrans|done].
      * intros [= <- <-]. split; [done|]. intros d' [= <-]. split; [|done].
        by apply Hdir.
    + destruct (catches [PathValidationError] e); simpl.
      * intros Hrun. apply IH in Hrun as [Hsub' Hr]. split; [by etrans|done].
      * by intros [= <- <-].
Qed.

(** X3: what the allocator guarantees about the directory it hands out.
    On every host and filesystem, a directory returned by
    [find_available_server_directory] is a directory on disk with no
    entry in it, and nothing that was on disk before has been removed or
    changed, whether the search succeeds or not. *)
Theorem allocated_directory_is_empty (h : host) (server_type version : string)
    (f f' : fs) (r : res path) :
  find_available_server_directory h server_type version f = (r, f') →
  f ⊆ f'
  ∧ (∀ d, r = Ok d → is_dir f' d = true ∧ has_entries f' d = false).
Proof. apply find_loop_post. Qed.

(** The servers directory with one Paper installation: the directory
    handed out next is [paper-1.21-1], created empty. *)
Lemma allocated_directory_is_empty_witness :
  let d := ["home"; "u"; "minecraft_servers"; "paper-1.21-1"] in
  let f' := <[ d := Directory o755 ]> one_install in
  is_dir f' d = true ∧ has_entries f' d = false.
Proof.
  intros d f'.
  refine (proj2 (allocated_directory_is_empty plain_host "paper" "1.21"
                   one_install f' (Ok d) _) d eq_refl).
  vm_compute. reflexivity.
Defined.

(** X4: a server type or version that [validate_server_name] rejects is
    not reported as invalid by the allocator.  Each of the 1000 attempts
    raises the validation error, which the loop takes for an occupied
    instance; the search ends with "Unable to find available directory
    after 1000 attempts", and the filesystem has not been touched (not
    even the servers directory is created). *)
Theorem invalid_name_exhausts_allocator (h : host)
    (server_type version : string) (f : fs) :
  validate_server_name server_type = false ∨ validate_server_name version = false →
  find_available_server_directory h server_type version f
  = (Raise (mk_exn PathValidationError
              "Unable to find available directory after 1000 attempts"), f).
Proof.
  intros Hbad. unfold find_available_server_directory.
  generalize (Z.to_nat max_instances) 0.
  induction n as [|todo IH]; intros i; [done|].
  rewrite find_loop_turn. unfold turn, get_server_directory. msimpl.
  destruct Hbad as [Hbad|Hbad].
  - rewrite Hbad. simpl. apply IH.
  - destruct (validate_server_name server_type); simpl; [|apply IH].
    rewrite Hbad. simpl. apply IH.
Qed.

(** A version with a plus sign, which the pattern of versions allows and
    the pattern of path components does not. *)
Lemma invalid_name_exhausts_allocator_witness :
  find_available_server_directory plain_host "paper" "1.21+build" ∅
  = (Raise (mk_exn PathValidationError
              "Unable to find available directory after 1000 attempts"), ∅).
Proof.
  apply (invalid_name_exhausts_allocator plain_host "paper" "1.21+build" ∅).
  right. reflexivity.
Defined.

Lemma str_path_within (a b : path) :
  within a b → String.prefix (str_path a) (str_path b) = true.
Proof.
  intros [rest ->]. destruct a as [|c a].
  - destruct rest as [|c rest]; [reflexivity|].
    change (str_path ([] ++ c :: rest)) with ("/" +:+ (c +:+ render rest)).
    apply string_prefix_app.
  - change (str_path ((c :: a) ++ rest)) with (render ((c :: a) ++ rest)).
    rewrite render_app. apply string_prefix_app.
Qed.

(** X21: the prefix test has no false alarms.  When both paths resolve
    and the resolved path lies inside the resolved parent (the parent
    itself included), [validate_and_resolve_path] returns the resolved
    path; and a path that it returns is always the resolved one. *)
Theorem descendants_pass_the_prefix_test (h : host) (p allowed_parent : path) :
  (∀ p' parent',
     resolve h p = Ok p' → resolve h allowed_parent = Ok parent' →
     within parent' p' →
     validate_and_resolve_path h p allowed_parent = Ok p')
  ∧ (∀ q, validate_and_resolve_path h p allowed_parent = Ok q →
          resolve h p = Ok q).
Proof.
  split.
  - intros p' parent' Hp Hparent Hin.
    unfold validate_and_resolve_path. rewrite Hp, Hparent. simpl.
    unfold PyStr.startswith. by rewrite (str_path_within _ _ Hin).
  - intros q. unfold validate_and_resolve_path.
    destruct (resolve h p) as [p'|e]; simpl.
    + destruct (resolve h allowed_parent) as [parent'|e]; simpl.
      * destruct (negb (PyStr.startswith (str_path p') (str_path parent')));
          simpl; [discriminate|]. by intros [= <-].
      * destruct (catches [OSError; ValueError] e); discriminate.
    + destruct (catches [OSError; ValueError] e); discriminate.
Qed.

End PathFacts.

(** * Facts about the resolvers and the cache *)

Module ApiFacts.
Import Http Api ApiSpec.

(** A [try] whose handler returns a value never raises. *)
Lemma try_catch_all_returns {S A} (body : M S A) (v : A) (s : S) :
  ∃ r s', try_catch_all body (λ _, mret v) s = (Ok r, s').
Proof.
  unfold try_catch_all. destruct (body s) as [[a|e] s']; msimpl; eauto.
Qed.

(** When the body raises, the handler's value is the result. *)
Lemma try_catch_all_handled {S A} (body : M S A) (v : A) (s s' : S) e :
  body s = (Raise e, s') → try_catch_all body (λ _, mret v) s = (Ok v, s').
Proof. intros H. unfold try_catch_all. by rewrite H. Qed.

Lemma getattr_wire name s r s' : getattr name s = (r, s') → s' = s.
Proof. unfold getattr. destruct (attrs s !! name); by intros [= _ <-]. Qed.

Lemma session_wire s r s' : session s = (r, s') → wire s' = wire s.
Proof.
  unfold session. msimpl. unfold getattr, setattr. msimpl.
  destruct (attrs s !! "_session") as [a|]; [|by intros [= _ <-]].
  destruct a; try by intros [= _ <-].
  destruct (attrs s !! "timeout"); [|by intros [= _ <-]].
  simpl. rewrite lookup_insert_eq. by intros [= _ <-].
Qed.

Lemma dispatch_throws {S A} (e : exn) (s : S)
    (clauses : list (list exn_class * (exn → M S A))) :
  Forall (λ cl, ∀ e s, ∃ e' s', cl.2 e s = (Raise e', s')) clauses →
  ∃ e' s', dispatch e clauses s = (Raise e', s').
Proof.
  induction 1 as [|[classes handler] rest Hh _ IH]; simpl; [eauto|].
  destruct (catches classes e); [apply Hh|apply IH].
Qed.

(** [get_json] raises when the reply to its request is a failure. *)
Lemma get_json_fails url s :
  next_fetch_fails s → ∃ e s', get_json url s = (Raise e, s').
Proof.
  intros Hfail. unfold get_json, try_clauses.
  assert (Hbody : ∃ e s',
    (s0 ← session; response ← session_get s0 url;
     _ ← raise_for_status response; response_json response) s = (Raise e, s')).
  { msimpl. destruct (session s) as [[a|e] s1] eqn:Es; [|eauto].
    pose proof (session_wire _ _ _ Es) as Hw.
    destruct a; simpl; unfold throw, raise; eauto.
    unfold requests_get, transmit. msimpl. rewrite Hw.
    specialize (Hfail url).
    destruct (respond (wire s) (length (sent (wire s))) url) as [why|e|status body];
      simpl in *; eauto.
    unfold raise_for_status, response_json. msimpl.
    destruct ((400 <=? status) && (status <? 600)) eqn:Est; [eauto|].
    destruct Hfail as [Hst| ->]; [|eauto].
    apply andb_false_iff in Est as [?%Z.leb_gt|?%Z.ltb_ge]; lia. }
  destruct Hbody as (e & s' & ->).
  apply dispatch_throws. repeat constructor; intros; msimpl; eauto.
Qed.

Lemma build_url_wire endpoint s r s' : build_url endpoint s = (r, s') → s' = s.
Proof.
  unfold build_url. msimpl. destruct (getattr "base_url" s) as [[a|e] s1] eqn:E.
  - apply getattr_wire in E as ->. by intros [= _ <-].
  - apply getattr_wire in E as ->. by intros [= _ <-].
Qed.

Lemma project_listing_fails endpoint key s :
  next_fetch_fails s →
  ∃ s', try_catch_all
          (url ← build_url endpoint; data ← get_json url;
           lift_res (get data key (PList [])))
          (λ _, mret (PList [])) s = (Ok (PList []), s').
Proof.
  intros Hfail.
  destruct (build_url endpoint s) as [[url|e] s1] eqn:Eb.
  - pose proof (build_url_wire _ _ _ _ Eb) as ->.
    destruct (get_json_fails url s Hfail) as (e & s' & Eg).
    exists s'. eapply try_catch_all_handled. msimpl. rewrite Eb, Eg. done.
  - exists s1. eapply try_catch_all_handled. msimpl. rewrite Eb. done.
Qed.

Lemma vanilla_listing_fails s :
  next_fetch_fails s →
  ∃ s', MinecraftVersionAPI.get_vanilla_versions s = (Ok (PList []), s').
Proof.
  intros Hfail. unfold MinecraftVersionAPI.get_vanilla_versions.
  destruct (getattr "MOJANG_MANIFEST_URL" s) as [[a|e] s1] eqn:Ea;
    pose proof (getattr_wire _ _ _ _ Ea) as ->.
  - specialize (Hfail (fmt a)).
    assert (Hreq : ∃ e s',
      (response ← requests_get (fmt a); _ ← raise_for_status response;
       response_json response) s = (Raise e, s')).
    { unfold requests_get, transmit, raise_for_status, response_json. msimpl.
      destruct (respond (wire s) (length (sent (wire s))) (fmt a))
        as [why|e|status body]; simpl in *; eauto.
      destruct ((400 <=? status) && (status <? 600)) eqn:Est; [eauto|].
      destruct Hfail as [Hst| ->]; [|eauto].
      apply andb_false_iff in Est as [?%Z.leb_gt|?%Z.ltb_ge]; lia. }
    destruct Hreq as (e & s' & Hreq). exists s'.
    eapply try_catch_all_handled. msimpl. rewrite Ea. msimpl.
    destruct (requests_get (fmt a) s) as [[resp|e0] s2]; msimpl.
    + destruct (raise_for_status resp s2) as [[[]|e1] s3]; msimpl.
      * destruct (response_json resp s3) as [[d|e2] s4]; [discriminate|].
        by injection Hreq as -> ->.
      * by injection Hreq as -> ->.
    + by injection Hreq as -> ->.
  - exists s. eapply try_catch_all_handled. msimpl. by rewrite Ea.
Qed.

(** C5: the version-list and build-list calls of the resolvers (Paper and
    Leaf [get_available_versions] and [get_builds], vanilla
    [get_vanilla_versions]) never raise, whatever the state of the client
    and of the network; and when the fetch fails (no connection, a fault
    in the HTTP library, an error status, a payload that is not JSON) they
    return the empty list. *)
Theorem listing_calls_never_raise (version : string) (s : api_state)
    (call : M api_state pyval) :
  call ∈ listing_calls version →
  (∃ r s', call s = (Ok r, s'))
  ∧ (next_fetch_fails s → ∃ s', call s = (Ok (PList []), s')).
Proof.
  unfold listing_calls. rewrite !elem_of_cons, elem_of_nil.
  intros [->|[->|[->|[->|[->|[]]]]]]; (split; [apply try_catch_all_returns|]).
  - apply project_listing_fails.
  - apply project_listing_fails.
  - apply project_listing_fails.
  - apply project_listing_fails.
  - apply vanilla_listing_fails.
Qed.

(** A Paper client whose first request meets a network that is down. *)
Lemma listing_calls_never_raise_witness :
  ∃ s', PaperAPI.get_builds "1.21" (mk_api PaperAPI.new recovering)
        = (Ok (PList []), s').
Proof.
  refine (proj2 (listing_calls_never_raise "1.21" (mk_api PaperAPI.new recovering)
                   (PaperAPI.get_builds "1.21") _) _).
  - unfold listing_calls. rewrite !elem_of_cons. right. left. reflexivity.
  - intros url. simpl. exact I.
Defined.

(** As the constructor leaves it, a [MinecraftVersionAPI] has no
    attribute [MOJANG_MANIFEST_URL]: the vanilla listing is empty whatever
    the network says, and nothing is requested. *)
Lemma get_vanilla_versions_always_empty (w : net) :
  MinecraftVersionAPI.get_vanilla_versions (mk_api MinecraftVersionAPI.new w)
  = (Ok (PList []), mk_api MinecraftVersionAPI.new w).
Proof. reflexivity. Qed.

(** Nor has it [_client], [PAPER_API_URL] or [LEAF_API_URL]: the project
    queries that the servers call on it answer with the empty list, and
    nothing is requested. *)
Lemma project_queries_always_empty (w : net) (version : string) :
  let s := mk_api MinecraftVersionAPI.new w in
  MinecraftVersionAPI.get_paper_versions s = (Ok (PList []), s)
  ∧ MinecraftVersionAPI.get_paper_builds version s = (Ok (PList []), s)
  ∧ MinecraftVersionAPI.get_leaf_versions s = (Ok (PList []), s)
  ∧ MinecraftVersionAPI.get_leaf_builds version s = (Ok (PList []), s).
Proof. repeat split; reflexivity. Qed.

(** The lookup that the vanilla resolver is written to perform does find
    the server download in the detail document. *)
Lemma server_url_of_detail :
  MinecraftVersionAPI.server_url_of detail
  = Ok (PStr "https://piston-data.mojang.com/server.jar").
Proof. reflexivity. Qed.

(** C3, the code at the failing inputs.  A [MinecraftVersionAPI] as its
    constructor builds it never assigns [_version_cache], which
    [get_version_info] reads first: the [AttributeError] is caught by the
    method's own [except Exception], so [get_server_jar_url] returns
    [None] for every version and on every network, without a single
    request; so it does on Mojang's manifest with the release 1.20.4 and
    its server download.  The other route, [_fetch_version_info], requests
    the manifest and then fails on [version.parse], [version] being its
    own string parameter. *)
Theorem vanilla_url_always_absent `{Packaging} (w : net) (version : string) :
  MinecraftVersionAPI.get_server_jar_url version (mk_api MinecraftVersionAPI.new w)
  = (Ok PNone, mk_api MinecraftVersionAPI.new w)
  ∧ MinecraftVersionAPI.get_server_jar_url "1.20.4"
      (mk_api MinecraftVersionAPI.new mojang)
    = (Ok PNone, mk_api MinecraftVersionAPI.new mojang)
  ∧ fst (MinecraftVersionAPI._fetch_version_info "1.20.4"
           (mk_api MinecraftVersionAPI.new mojang))
    = Ok PNone.
Proof. repeat split; reflexivity. Qed.

(** A value in the cache is returned as it is, and nothing is fetched. *)
Lemma get_cached_or_fetch_hit key fetch_func s c v :
  attrs s !! "_cache" = Some (ACache c) → c !! key = Some v →
  get_cached_or_fetch key fetch_func s = (Ok v, s).
Proof.
  intros Hc Hv. unfold get_cached_or_fetch, the_cache, getattr. msimpl.
  rewrite Hc. simpl. rewrite Hv. simpl. by rewrite ?Hv.
Qed.

(** A fetch that raises leaves the cache as the fetch left it, and
    [None] is returned. *)
Lemma get_cached_or_fetch_raise key fetch_func s c e s' :
  attrs s !! "_cache" = Some (ACache c) → c !! key = None →
  fetch_func s = (Raise e, s') →
  get_cached_or_fetch key fetch_func s = (Ok PNone, s').
Proof.
  intros Hc Hv Hf. unfold get_cached_or_fetch, the_cache, getattr. msimpl.
  rewrite Hc. simpl. rewrite Hv. simpl. by rewrite ?Hf.
Qed.

(** C2, the code at a failing input.  The network is down for the first
    request and up afterwards.  The first [get_version_info("1.21")] of a
    Paper client returns [None], and [None] is stored under
    [version_info_1.21], because [_fetch_version_info] catches the error
    itself and returns [None] to [get_cached_or_fetch]; the second call
    returns the stored [None] and sends no request, although a fetch at
    that moment gets the document. *)
Theorem failed_fetch_is_cached :
  let s0 := mk_api PaperAPI.new recovering in
  let '(r1, s1) := PaperAPI.get_version_info "1.21" s0 in
  let '(r2, s2) := PaperAPI.get_version_info "1.21" s1 in
  r1 = Ok PNone
  ∧ cache_of s1 !! "version_info_1.21" = Some PNone
  ∧ r2 = Ok PNone
  ∧ sent (wire s2) = sent (wire s1)
  ∧ length (sent (wire s2)) = 1%nat
  ∧ fst (PaperAPI._fetch_version_info "1.21" s1) = Ok paper_1_21.
Proof. vm_compute. repeat split; reflexivity. Qed.

(** *** The JSON fetch and the cache on their own *)

(** X5: [get_json] on a constructed client.  It sends exactly one
    request, for the URL it was given, and leaves the client with a
    session.  Unless the HTTP library raises something of its own, the
    outcome is the decoded document of a reply without error status, or an
    [APIError]: a refused connection, an error status and a payload that
    is not JSON never escape as [RequestException] or [ValueError]. *)
Theorem get_json_raises_only_api_error (url : string) (s s' : api_state)
    (r : res pyval) :
  initialised s →
  (∀ e, next_reply s url ≠ Faulty e) →
  get_json url s = (r, s') →
  sent (wire s') = sent (wire s) ++ [url]
  ∧ attrs s' !! "_session" = Some ASession
  ∧ match r with
    | Ok v => ∃ status, next_reply s url = Reply status (Some v)
                        ∧ ¬ (400 ≤ status < 600)
    | Raise e => exn_cls e = APIError ∧ failed (next_reply s url)
    end.
Proof.
  intros [[t Ht] Hs] Hlib Hrun. unfold next_reply in *.
  assert (Hsess : ∃ s1, session s = (Ok ASession, s1)
                        ∧ wire s1 = wire s
                        ∧ attrs s1 !! "_session" = Some ASession).
  { unfold session, getattr, setattr. msimpl.
    destruct Hs as [Hs|Hs]; rewrite Hs; simpl.
    - rewrite Ht. simpl. rewrite lookup_insert_eq.
      eexists. split; [done|]. split; [done|]. apply lookup_insert_eq.
    - eauto. }
  destruct Hsess as (s1 & Hsess & Hw & Ha).
  unfold get_json, try_clauses in Hrun. msimpl. rewrite Hsess in Hrun. simpl in Hrun.
  unfold requests_get, transmit, raise_for_status, response_json in Hrun.
  msimpl. rewrite Hw in Hrun.
  destruct (respond (wire s) (length (sent (wire s))) url)
    as [why|e|status body] eqn:Er; simpl in Hrun.
  - injection Hrun as <- <-. simpl. done.
  - by destruct (Hlib e).
  - destruct ((400 <=? status) && (status <? 600)) eqn:Est; simpl in Hrun.
    + injection Hrun as <- <-. simpl. repeat split; [done|].
      left. apply andb_true_iff in Est as [?%Z.leb_le ?%Z.ltb_lt]. lia.
    + destruct body as [v|]; simpl in Hrun; injection Hrun as <- <-; simpl.
      * repeat split; [done|]. exists status. split; [done|].
        apply andb_false_iff in Est as [?%Z.leb_gt|?%Z.ltb_ge]; lia.
      * repeat split; [done|]. by right.
Qed.

(** A Paper client that asks for the project while the network is down. *)
Lemma get_json_raises_only_api_error_witness :
  let s := mk_api PaperAPI.new recovering in
  let url := "https://api.papermc.io/v2/projects/paper" in
  sent (wire (get_json url s).2) = [url]
  ∧ attrs (get_json url s).2 !! "_session" = Some ASession
  ∧ match (get_json url s).1 with
    | Ok v => ∃ status, next_reply s url = Reply status (Some v)
                        ∧ ¬ (400 ≤ status < 600)
    | Raise e => exn_cls e = APIError ∧ failed (next_reply s url)
    end.
Proof.
  intros s url.
  refine (get_json_raises_only_api_error url s (get_json url s).2
            (get_json url s).1 _ _ _).
  - split; [by eexists|]. left. reflexivity.
  - intros e. discriminate.
  - apply surjective_pairing.
Defined.

(** X6: the cache round trip of [get_cached_or_fetch].  On a miss, a
    fetch that returns a value has it stored under the key (in the cache
    as the fetch left it) and returned; from then on the key is a hit:
    the value is returned whatever fetch function is passed, the function
    is not run, and the client does not change. *)
Theorem fetched_value_is_served_from_cache (key : string)
    (fetch_func : M api_state pyval) (s s1 : api_state)
    (c c1 : gmap string pyval) (v : pyval) :
  attrs s !! "_cache" = Some (ACache c) → c !! key = None →
  fetch_func s = (Ok v, s1) →
  attrs s1 !! "_cache" = Some (ACache c1) →
  let s2 := mk_api (<["_cache" := ACache (<[key := v]> c1)]> (attrs s1)) (wire s1) in
  get_cached_or_fetch key fetch_func s = (Ok v, s2)
  ∧ ∀ other, get_cached_or_fetch key other s2 = (Ok v, s2).
Proof.
  intros Hc Hmiss Hfetch Hc1 s2. split.
  - unfold get_cached_or_fetch, the_cache, getattr, setattr. msimpl.
    rewrite Hc. simpl. rewrite Hmiss. simpl. rewrite Hfetch. simpl.
    rewrite Hc1. simpl. rewrite lookup_insert_eq. simpl.
    by rewrite lookup_insert_eq.
  - intros other. apply (get_cached_or_fetch_hit _ _ _ (<[key := v]> c1)).
    + apply lookup_insert_eq.
    + apply lookup_insert_eq.
Qed.

(** The document of Paper 1.21, fetched once the network is up. *)
Lemma fetched_value_is_served_from_cache_witness :
  let s := mk_api PaperAPI.new (mk_net (respond recovering) ["first"]) in
  let other := throw RuntimeError "the fetch function was run" in
  get_cached_or_fetch "version_info_1.21" other
    (get_cached_or_fetch "version_info_1.21"
       (PaperAPI._fetch_version_info "1.21") s).2
  = (Ok paper_1_21,
     (get_cached_or_fetch "version_info_1.21"
        (PaperAPI._fetch_version_info "1.21") s).2).
Proof.
  intros s other.
  pose proof (fetched_value_is_served_from_cache "version_info_1.21"
                (PaperAPI._fetch_version_info "1.21") s
                (PaperAPI._fetch_version_info "1.21" s).2 ∅ ∅ paper_1_21
                eq_refl eq_refl eq_refl eq_refl) as [Hfirst Hagain].
  rewrite Hfirst. apply Hagain.
Defined.


(** X8: the download URLs of a [MinecraftVersionAPI].  The f-strings of
    [get_paper_download_url] and [get_leaf_download_url] start with
    [self.PAPER_API_URL] and [self.LEAF_API_URL], which are names of the
    module, not attributes of the instance or of its classes: for every
    version and build both methods raise [AttributeError], and the client
    is left as it was. *)
Theorem download_urls_raise_attribute_error (w : net) (version : string)
    (build : Z) :
  let s := mk_api MinecraftVersionAPI.new w in
  (∃ msg, MinecraftVersionAPI.get_paper_download_url version build s
          = (Raise (mk_exn AttributeError msg), s))
  ∧ (∃ msg, MinecraftVersionAPI.get_leaf_download_url version build s
            = (Raise (mk_exn AttributeError msg), s)).
Proof. split; eexists; reflexivity. Qed.

Lemma chars_app (a b : string) :
  PyStr.chars (a +:+ b) = PyStr.chars a ++ PyStr.chars b.
Proof.
  induction a as [|c a IH]; [done|].
  change (PyStr.chars (String c a +:+ b)) with (c :: PyStr.chars (a +:+ b)).
  by rewrite IH.
Qed.

Lemma lstrip_slash_clean (l : list ascii) :
  head (lstrip_slash_chars l) ≠ Some "/"%char.
Proof.
  induction l as [|c l IH]; [done|]. simpl.
  destruct (bool_decide (c = "/"%char)) eqn:E; [done|].
  apply bool_decide_eq_false in E. simpl. congruence.
Qed.

(** X22: [build_url] joins with exactly one slash.  On a client built
    by [BaseVersionAPI.__init__], the URL is the base without its
    trailing slashes, one slash, and the endpoint without its leading
    slashes: the first part does not end with a slash and the last does
    not start with one, and neither a slash added in front of the
    endpoint nor one added behind the base changes the result.  The
    client is not changed. *)
Theorem build_url_joins_with_one_slash (base_url endpoint : string)
    (timeout : Z) (o : gmap string attr) (w : net) :
  let s := mk_api (BaseVersionAPI_init base_url timeout o) w in
  build_url endpoint s
  = (Ok (rstrip_slash base_url +:+ "/" +:+ lstrip_slash endpoint), s)
  ∧ last (PyStr.chars (rstrip_slash base_url)) ≠ Some "/"%char
  ∧ head (PyStr.chars (lstrip_slash endpoint)) ≠ Some "/"%char
  ∧ build_url ("/" +:+ endpoint) s = build_url endpoint s
  ∧ BaseVersionAPI_init (base_url +:+ "/") timeout o
    = BaseVersionAPI_init base_url timeout o.
Proof.
  intros s.
  assert (Hb : build_url endpoint s
               = (Ok (rstrip_slash base_url +:+ "/" +:+ lstrip_slash endpoint), s)).
  { unfold build_url, getattr, s, BaseVersionAPI_init. msimpl.
    by rewrite lookup_insert_eq. }
  split; [exact Hb|]. split; [|split; [|split]].
  - unfold rstrip_slash. rewrite PathFacts.chars_of_chars.
    rewrite rev_alt. fold (reverse (lstrip_slash_chars (rev (PyStr.chars base_url)))).
    rewrite last_reverse. apply lstrip_slash_clean.
  - unfold lstrip_slash. rewrite PathFacts.chars_of_chars.
    apply lstrip_slash_clean.
  - rewrite Hb. unfold build_url, getattr, s, BaseVersionAPI_init. msimpl.
    by rewrite lookup_insert_eq.
  - unfold BaseVersionAPI_init. do 2 f_equal. unfold rstrip_slash.
    rewrite chars_app. change (PyStr.chars "/") with ["/"%char].
    by rewrite rev_app_distr.
Qed.

End ApiFacts.

(** * Facts about the streaming download *)

Module DownloadFacts.
Import Download DownloadSpec.

Lemma written_file_write s destination chunk s' :
  file_write destination chunk s = (Ok (), s') →
  written s' destination = written s destination ++ chunk
  ∧ progress s' = progress s.
Proof.
  unfold file_write, written.
  destruct (match room (store s) with
            | Some r => (length chunk <=? r)%nat
            | None => true
            end); [|discriminate].
  intros [= <-]. simpl. by rewrite lookup_insert_eq.
Qed.

Lemma write_chunks_spec destination has_callback total :
  ∀ todo downloaded s d' s',
  write_chunks destination has_callback total todo downloaded s = (Ok d', s') →
  written s' destination = written s destination ++ concat todo
  ∧ progress s' =
      progress s ++
      (if has_callback && (0 <? total)
       then map (λ d, (d, total)) (running_sums downloaded todo) else []).
Proof.
  induction todo as [|chunk rest IH]; intros downloaded s d' s' Hrun.
  - simpl in Hrun. msimpl. injection Hrun as _ <-. rewrite !app_nil_r.
    by destruct (has_callback && (0 <? total)); rewrite ?app_nil_r.
  - simpl in Hrun. msimpl.
    destruct (file_write destination chunk s) as [[[]|e] s1] eqn:Ew; [|discriminate].
    apply written_file_write in Ew as [Hw Hp].
    destruct (has_callback && (0 <? total)) eqn:Ecb; msimpl;
      apply IH in Hrun as [Hw' Hp']; rewrite ?Ecb in Hp'; simpl in *.
    + unfold written in *. simpl in *. split.
      * by rewrite Hw', Hw, <- app_assoc.
      * by rewrite Hp', Hp, <- app_assoc.
    + split.
      * by rewrite Hw', Hw, <- app_assoc.
      * by rewrite Hp', Hp.
Qed.

Lemma running_sums_length start todo :
  length (running_sums start todo) = length todo.
Proof.
  revert start. induction todo as [|chunk rest IH]; intros start; [done|].
  simpl. by rewrite IH.
Qed.

Lemma running_sums_from start todo :
  Forall (λ d, start ≤ d) (running_sums start todo)
  ∧ StronglySorted Z.le (running_sums start todo)
  ∧ ∀ d, last (running_sums start todo) = Some d →
         d = start + Z.of_nat (length (concat todo)).
Proof.
  revert start. induction todo as [|chunk rest IH]; intros start.
  - repeat split; [constructor|constructor|discriminate].
  - simpl. destruct (IH (start + Z.of_nat (length chunk))) as (Hge & Hsorted & Hlast).
    repeat split.
    + constructor; [lia|]. eapply Forall_impl; [exact Hge|]. simpl. lia.
    + by constructor.
    + intros d Hd. rewrite length_app.
      destruct (running_sums (start + Z.of_nat (length chunk)) rest) as [|x l] eqn:E.
      * destruct rest; [|discriminate]. simpl in *. injection Hd as <-. lia.
      * rewrite last_cons_cons in Hd. rewrite (Hlast d Hd). lia.
Qed.

Lemma open_wb_spec destination s s' :
  open_wb destination s = (Ok (), s') →
  written s' destination = [] ∧ progress s' = progress s
  ∧ is_Some (files (store s') !! destination).
Proof.
  unfold open_wb, written. destruct (writable (store s) destination); [|discriminate].
  intros [= <-]. simpl. rewrite lookup_insert_eq. eauto.
Qed.

Lemma write_chunks_keeps_file destination has_callback total :
  ∀ todo downloaded s d' s',
  write_chunks destination has_callback total todo downloaded s = (Ok d', s') →
  is_Some (files (store s) !! destination) →
  is_Some (files (store s') !! destination).
Proof.
  induction todo as [|chunk rest IH]; intros downloaded s d' s' Hrun Hsome.
  - simpl in Hrun. msimpl. by injection Hrun as _ <-.
  - simpl in Hrun. msimpl.
    destruct (file_write destination chunk s) as [[[]|e] s1] eqn:Ew; [|discriminate].
    assert (Hs1 : is_Some (files (store s1) !! destination)).
    { unfold file_write in Ew.
      destruct (match room (store s) with
                | Some r => (length chunk <=? r)%nat
                | None => true
                end); [|discriminate].
      injection Ew as <-. simpl. rewrite lookup_insert_eq. eauto. }
    destruct (has_callback && (0 <? total)); msimpl; eapply IH; eauto.
Qed.

(** C6: a successful [download_file].  The callback is called once per
    chunk, and only when it is given and the declared length is positive;
    the values it receives are the running sums of the chunk lengths,
    hence in non-decreasing order, each paired with the declared length;
    the last one is the number of bytes written to the destination, which
    holds the chunks in order; with no [content-length], or a length of
    zero, the callback receives nothing. *)
Theorem progress_follows_chunks (serve : string → Z → stream)
    (url destination : string) (has_callback : bool) (chunk_size : Z)
    (s s' : dl_state) :
  download_file serve url destination has_callback chunk_size s = (Ok true, s') →
  let response := serve url chunk_size in
  let sums := running_sums 0 (chunks response) in
  progress s' = progress s ++ expected_calls has_callback response
  ∧ length sums = length (chunks response)
  ∧ StronglySorted Z.le sums
  ∧ files (store s') !! destination = Some (concat (chunks response))
  ∧ (∀ d, last sums = Some d →
          d = Z.of_nat (length (written s' destination)))
  ∧ (declared_total response ≤ 0 → progress s' = progress s).
Proof.
  intros Hrun response sums.
  unfold download_file, Http.try_clauses in Hrun. fold response in Hrun.
  assert (Hbody : ∃ d s1,
    length_header response ≠ BadLength
    ∧ open_wb destination s = (Ok (), s1)
    ∧ write_chunks destination has_callback (declared_total response)
        (chunks response) 0 s1 = (Ok d, s')).
  { unfold declared_total. msimpl.
    destruct (refused response); [dead Hrun|].
    destruct ((400 <=? stream_status response) && (stream_status response <? 600));
      [dead Hrun|].
    msimpl.
    destruct (length_header response) eqn:El; msimpl; try dead Hrun.
    all: destruct (open_wb destination s) as [[[]|e] s1] eqn:Eo; [|dead Hrun].
    all: destruct (write_chunks destination has_callback _ (chunks response) 0 s1)
      as [[d|e] s2] eqn:Ew; [|dead Hrun].
    all: destruct (breaks response); [dead Hrun|].
    all: injection Hrun as <-; exists d, s1; by rewrite ?El. }
  destruct Hbody as (d & s1 & _ & Hopen & Hwrite).
  apply open_wb_spec in Hopen as (Hw1 & Hp1 & Hsome1).
  pose proof (write_chunks_keeps_file _ _ _ _ _ _ _ _ Hwrite Hsome1) as [content Hcontent].
  apply write_chunks_spec in Hwrite as [Hw Hp].
  rewrite Hw1 in Hw. simpl in Hw. rewrite Hp1 in Hp.
  destruct (running_sums_from 0 (chunks response)) as (_ & Hsorted & Hlast).
  assert (Hfile : files (store s') !! destination = Some (concat (chunks response))).
  { unfold written in Hw. rewrite Hcontent in Hw |- *. simpl in Hw. by rewrite Hw. }
  repeat split.
  - exact Hp.
  - apply running_sums_length.
  - exact Hsorted.
  - exact Hfile.
  - intros x Hx. rewrite Hw. rewrite (Hlast x Hx). lia.
  - intros Hzero. rewrite Hp. unfold expected_calls.
    replace (0 <? declared_total response) with false by lia.
    by rewrite andb_false_r, app_nil_r.
Qed.

(** 1000 bytes in chunks of 250 with [content-length: 1000]: four calls,
    with 250, 500, 750 and 1000. *)
Lemma progress_follows_chunks_witness :
  progress (snd (download_file thousand_bytes "https://example.org/server.jar"
                   "server.jar" true default_chunk_size empty_disk))
  = [(250, 1000); (500, 1000); (750, 1000); (1000, 1000)].
Proof.
  pose (run := download_file thousand_bytes "https://example.org/server.jar"
                 "server.jar" true default_chunk_size empty_disk).
  assert (Hrun : run = (Ok true, snd run)) by (vm_compute; reflexivity).
  change (progress (snd run) = [(250, 1000); (500, 1000); (750, 1000); (1000, 1000)]).
  rewrite (proj1 (progress_follows_chunks _ _ _ _ _ _ _ Hrun)).
  reflexivity.
Defined.

(** *** Downloads that fail *)






(** X11: [download_file] never returns [False].  Its result is [True],
    or an exception: there is no failure that it reports through the
    returned value. *)
Theorem download_file_never_returns_false (serve : string → Z → stream)
    (url destination : string) (has_callback : bool) (chunk_size : Z)
    (s : dl_state) :
  (download_file serve url destination has_callback chunk_size s).1 ≠ Ok false.
Proof.
  destruct (download_file serve url destination has_callback chunk_size s)
    as [r s'] eqn:Hrun.
  simpl. intros ->. unfold download_file, Http.try_clauses in Hrun.
  match type of Hrun with
  | context [match ?body s with _ => _ end] =>
      destruct (body s) as [[b|e] s1] eqn:Hbody
  end.
  - injection Hrun as -> ->. msimpl.
    destruct (refused (serve url chunk_size)); [dead Hbody|].
    destruct ((400 <=? stream_status (serve url chunk_size))
              && (stream_status (serve url chunk_size) <? 600)); [dead Hbody|].
    msimpl.
    destruct (length_header (serve url chunk_size)); msimpl; try dead Hbody.
    all: destruct (open_wb destination s) as [[[]|e] s1]; [|dead Hbody].
    all: destruct (write_chunks destination has_callback _ _ 0 s1) as [[d|e] s2];
      [|dead Hbody].
    all: destruct (breaks (serve url chunk_size)); dead Hbody.
  - match type of Hrun with
    | Http.dispatch e ?clauses s1 = _ =>
        destruct (ApiFacts.dispatch_throws e s1 clauses) as (e' & s2 & Hd)
    end.
    + repeat constructor; intros; msimpl; eauto.
    + rewrite Hd in Hrun. discriminate.
Qed.

End DownloadFacts.

(** * Facts about the server variants *)

Module ServerFacts.
Import Paths Constants Servers ServerSpec.

Lemma BaseServer_init_plain h k version ram port w :
  acceptable version ram port →
  BaseServer_init h k version ram port None w
  = (Ok (mk_server k (PyStr.strip version) ram port None None None None None None), w).
Proof.
  intros (Hv & Hram & Hport). unfold BaseServer_init.
  rewrite bool_decide_eq_false_2 by done.
  replace (ram <? MIN_RAM_MB) with false by lia.
  replace (MAX_RAM_MB <? ram) with false by lia.
  replace (port <? MIN_PORT) with false by lia.
  replace (MAX_PORT <? port) with false by lia.
  simpl. destruct w. reflexivity.
Qed.








(** C10, the code at the failing inputs.  [BaseServer.__init__] leaves
    [_api] at [None], and the constructors of [PaperServer] and
    [LeafServer] run the version check at once: [supported_versions] calls
    a method on [None], inside a [try] that only catches [RuntimeError].
    For every version, build and state of the event loop, the constructor
    raises [AttributeError]; no request is sent and
    [UnsupportedVersionError] is never reached. *)
Theorem paper_constructor_raises_attribute_error mc (version : string)
    (build : option Z) (ram port : Z) (w : world) :
  acceptable version ram port →
  PaperServer mc version build ram port None w
  = (Raise (none_has_no "get_paper_versions"), w)
  ∧ LeafServer mc version build ram port None w
    = (Raise (none_has_no "get_leaf_versions"), w).
Proof.
  intros Hok. unfold PaperServer, LeafServer. msimpl.
  rewrite !(BaseServer_init_plain _ _ _ _ _ _ Hok).
  unfold finish_init, _validate_version_support, is_version_supported,
    supported_versions, fetch_versions_on_loop, get_event_loop, api_method.
  destruct w. destruct (event_loop mc); split; reflexivity.
Qed.

Lemma paper_constructor_raises_attribute_error_witness :
  PaperServer plain_machine "1.21" None 2048 25565 None fresh
  = (Raise (none_has_no "get_paper_versions"), fresh).
Proof.
  refine (proj1 (paper_constructor_raises_attribute_error plain_machine "1.21"
                   None 2048 25565 fresh _)).
  unfold acceptable. repeat split; [discriminate|..]; vm_compute; discriminate.
Defined.

(** What the version check of Paper would do on an object whose [_api] is set:
    a project query that comes back empty leaves no version supported. *)
Lemma paper_check_without_fallback mc (o : server) (a : api_handle) w w' :
  kind_of o = Paper → _api o = Some a → _cached_versions o = None →
  event_loop mc ≠ Running →
  get_paper_versions a w = (Ok [], w') →
  finish_init mc o w = (Raise (unsupported Paper (version o)), w').
Proof.
  intros Hk Hapi Hcache Hloop Hq. destruct o; simpl in *; subst.
  unfold finish_init, _validate_version_support, is_version_supported,
    supported_versions, fetch_versions_on_loop, get_event_loop, api_method,
    run_until_complete, asyncio_run, in_world.
  destruct (event_loop mc); try done; msimpl; rewrite Hq; reflexivity.
Qed.

(** *** Build selection *)

Lemma keeps_build_ret {A} (a : A) : keeps_build (mret a).
Proof. by intros s r s' [= _ <-]. Qed.

Lemma keeps_build_throw {A} c msg : keeps_build (@throw st A c msg).
Proof. by intros s r s' [= _ <-]. Qed.

Lemma keeps_build_bind {A B} (m : M st A) (k : A → M st B) :
  keeps_build m → (∀ a, keeps_build (k a)) → keeps_build (m ≫= k).
Proof.
  intros Hm Hk s r s'. unfold mbind, M_bind.
  destruct (m s) as [[a|e] s1] eqn:E.
  - intros Hrun. rewrite (Hk a _ _ _ Hrun). eapply Hm; eauto.
  - intros [= _ <-]. eapply Hm; eauto.
Qed.

Lemma keeps_build_try_catch_all {A} (m : M st A) (h : exn → M st A) :
  keeps_build m → (∀ e, keeps_build (h e)) → keeps_build (try_catch_all m h).
Proof.
  intros Hm Hh s r s'. unfold try_catch_all.
  destruct (m s) as [[a|e] s1] eqn:E.
  - intros [= _ <-]. eapply Hm; eauto.
  - intros Hrun. rewrite (Hh e _ _ _ Hrun). eapply Hm; eauto.
Qed.

Lemma keeps_build_try_catch {A} (m : M st A) classes (h : exn → M st A) :
  keeps_build m → (∀ e, keeps_build (h e)) → keeps_build (try_catch m classes h).
Proof.
  intros Hm Hh s r s'. unfold try_catch.
  destruct (m s) as [[a|e] s1] eqn:E.
  - intros [= _ <-]. eapply Hm; eauto.
  - destruct (catches classes e).
    + intros Hrun. rewrite (Hh e _ _ _ Hrun). eapply Hm; eauto.
    + intros [= _ <-]. eapply Hm; eauto.
Qed.

Lemma keeps_build_in_world {A} (m : M world A) : keeps_build (in_world m).
Proof.
  intros s r s'. unfold in_world. destruct (m (env s)). by intros [= _ <-].
Qed.

Lemma keeps_build_get_self : keeps_build get_self.
Proof. by intros s r s' [= _ <-]. Qed.

Lemma keeps_build_api_method {A} name (call : api_handle → M world A) :
  keeps_build (api_method name call)
  ∧ ∀ s coro s', api_method name call s = (Ok coro, s') → keeps_build coro.
Proof.
  unfold api_method. split.
  - intros s r s'. msimpl. destruct (_api (self s)); by intros [= _ <-].
  - intros s coro s'. msimpl. destruct (_api (self s)); [|discriminate].
    intros [= <- _]. apply keeps_build_in_world.
Qed.

Lemma keeps_build_install_directory mc : keeps_build (install_directory mc).
Proof.
  intros s r s'. unfold install_directory. msimpl.
  destruct (_install_directory (self s)); [by intros [= _ <-]|].
  unfold in_world, in_dirs.
  destruct (find_available_server_directory _ _ _ _) as [[found|e] f]; simpl.
  - by intros [= _ <-].
  - destruct (catches _ e); by intros [= _ <-].
Qed.

Lemma keeps_build_fetch_jar mc url cb : keeps_build (fetch_jar mc url cb).
Proof.
  unfold fetch_jar. apply keeps_build_bind; [apply keeps_build_get_self|].
  intros o. destruct (_download_manager o) as [dm|]; [|apply keeps_build_throw].
  apply keeps_build_bind; [|intros; apply keeps_build_in_world].
  unfold server_jar_path. apply keeps_build_bind; [apply keeps_build_install_directory|].
  intros dir. apply keeps_build_bind; [apply keeps_build_get_self|].
  intros; apply keeps_build_ret.
Qed.

(** What follows [ensure_build_selected] in an acquisition. *)
Lemma keeps_build_download_tail mc cb name
    (url_of : server → api_handle → M world string) :
  keeps_build (o ← get_self;
               call ← api_method name (url_of o);
               download_url ← call;
               fetch_jar mc download_url cb).
Proof.
  apply keeps_build_bind; [apply keeps_build_get_self|]. intros o.
  intros s r s'. unfold mbind at 1, M_bind at 1.
  destruct (api_method name (url_of o) s) as [[coro|e] s1] eqn:E.
  - pose proof (proj1 (keeps_build_api_method name (url_of o)) _ _ _ E) as H1.
    pose proof (proj2 (keeps_build_api_method name (url_of o)) _ _ _ E) as Hc.
    intros Hrun. rewrite <- H1. revert Hrun.
    apply (keeps_build_bind coro); [done|]. intros; apply keeps_build_fetch_jar.
  - intros [= _ <-].
    by apply (proj1 (keeps_build_api_method name (url_of o)) _ _ _ E).
Qed.

Lemma max_of_spec b bs :
  max_of b bs ∈ b :: bs ∧ ∀ x, x ∈ b :: bs → x ≤ max_of b bs.
Proof.
  unfold max_of. revert b. induction bs as [|c bs IH]; intros b; simpl.
  - split; [left|]. intros x Hx. apply list_elem_of_singleton in Hx. lia.
  - destruct (IH (Z.max b c)) as [Hin Hmax]. split.
    + apply elem_of_cons in Hin as [Hin|Hin]; [|by do 2 right].
      rewrite Hin. destruct (Z.max_spec b c) as [[_ ->]|[_ ->]];
        [right; left|left].
    + intros x Hx. apply elem_of_cons in Hx as [->|Hx].
      * specialize (Hmax (Z.max b c) ltac:(left)). lia.
      * apply elem_of_cons in Hx as [->|Hx].
        -- specialize (Hmax (Z.max b c) ltac:(left)). lia.
        -- apply Hmax. by right.
Qed.

Lemma ensure_build_selected_set s b :
  build (self s) = Some b → ensure_build_selected s = (Ok true, s).
Proof. intros Hb. unfold ensure_build_selected. msimpl. by rewrite Hb. Qed.

Lemma ensure_build_selected_unset s a bs w' :
  build (self s) = None → _api (self s) = Some a →
  builds_call (kind_of (self s)) a (version (self s)) (env s) = (Ok bs, w') →
  ensure_build_selected s =
    match bs with
    | [] => (Ok false, mk_st (self s) w')
    | b :: rest =>
        (Ok true, mk_st (with_build (self s) (Some (max_of b rest))) w')
    end.
Proof.
  intros Hb Ha Hq. unfold ensure_build_selected, get_latest_build,
    get_available_builds, api_method, in_world.
  msimpl. rewrite Hb. msimpl. rewrite Ha. simpl. rewrite Hq.
  by destruct bs.
Qed.

Lemma acquire_unfold `{Packaging} mc cb s :
  acquire mc cb s =
    try_catch_all
      (if resolves_build (self s) then
         selected ← ensure_build_selected;
         if negb selected then mret false
         else
           o ← get_self;
           call ← api_method
                    (match kind_of (self s) with
                     | Leaf => "get_leaf_download_url"
                     | _ => "get_paper_download_url"
                     end)
                    (λ a, match kind_of (self s) with
                          | Leaf => get_leaf_download_url a (version o) (build o)
                          | _ => get_paper_download_url a (version o) (build o)
                          end);
           download_url ← call;
           fetch_jar mc download_url cb
       else fetch_jar mc (get_direct_download_url (self s)) cb)
      (λ _, mret false) s.
Proof.
  unfold acquire, resolves_build, Leaf_download_server_jar,
    Paper_download_server_jar, try_catch_all.
  destruct (kind_of (self s)); try reflexivity.
  msimpl. by destruct (is_direct_download_version (self s)).
Qed.

Lemma acquire_direct `{Packaging} mc cb s :
  resolves_build (self s) = false →
  build (self (acquire mc cb s).2) = build (self s).
Proof.
  intros Hd. rewrite acquire_unfold, Hd.
  destruct (try_catch_all _ _ s) as [r s'] eqn:E. simpl.
  revert E. apply keeps_build_try_catch_all.
  - apply keeps_build_fetch_jar.
  - intros; apply keeps_build_ret.
Qed.

Lemma acquire_after_ensure `{Packaging} mc cb s ok s1 :
  resolves_build (self s) = true →
  ensure_build_selected s = (Ok ok, s1) →
  build (self (acquire mc cb s).2) = build (self s1)
  ∧ (ok = false → acquire mc cb s = (Ok false, s1)).
Proof.
  intros Hr He. rewrite acquire_unfold, Hr.
  set (tail := get_self ≫= _).
  assert (Ht : keeps_build tail).
  { apply (keeps_build_download_tail mc cb _
             (λ o a, match kind_of (self s) with
                     | Leaf => get_leaf_download_url a (version o) (build o)
                     | _ => get_paper_download_url a (version o) (build o)
                     end)). }
  unfold try_catch_all, mbind, M_bind. rewrite He.
  destruct ok; simpl; [|done].
  destruct (tail s1) as [[r|e] s2] eqn:E; simpl; (split; [|done]);
    by apply Ht in E.
Qed.

(** C7, amended: build selection of Paper and Leaf.  A build that is
    set is never overwritten, by [ensure_build_selected] or by the
    acquisition.  With no build set, [ensure_build_selected] asks the
    resolver for the builds of the version: on an empty list it returns
    [False] and the build stays unset; otherwise the build becomes the
    maximum of the list.  The acquisition goes through this step for
    Paper, and for Leaf at versions that are not direct downloads (it
    then fails on an empty list); for a Leaf version below 1.21.4 it
    downloads directly and leaves the build as it was. *)
Theorem build_resolved_once `{Packaging} (mc : machine) (cb : bool) (s : st) :
  build_kind (kind_of (self s)) →
  (∀ b, build (self s) = Some b →
     ensure_build_selected s = (Ok true, s)
     ∧ build (self (acquire mc cb s).2) = Some b)
  ∧ (∀ a bs w',
       build (self s) = None → _api (self s) = Some a →
       builds_call (kind_of (self s)) a (version (self s)) (env s) = (Ok bs, w') →
       match bs with
       | [] =>
           ensure_build_selected s = (Ok false, mk_st (self s) w')
           ∧ (resolves_build (self s) = true →
              acquire mc cb s = (Ok false, mk_st (self s) w'))
       | b :: rest =>
           ensure_build_selected s
           = (Ok true, mk_st (with_build (self s) (Some (max_of b rest))) w')
           ∧ max_of b rest ∈ b :: rest
           ∧ (∀ x, x ∈ b :: rest → x ≤ max_of b rest)
           ∧ (resolves_build (self s) = true →
              build (self (acquire mc cb s).2) = Some (max_of b rest))
       end)
  ∧ (resolves_build (self s) = false →
     build (self (acquire mc cb s).2) = build (self s)).
Proof.
  intros _. split; [|split].
  - intros b Hb. pose proof (ensure_build_selected_set s b Hb) as He.
    split; [done|].
    destruct (resolves_build (self s)) eqn:Hr.
    + by rewrite (proj1 (acquire_after_ensure mc cb s true s Hr He)).
    + by rewrite acquire_direct.
  - intros a bs w' Hb Ha Hq.
    pose proof (ensure_build_selected_unset s a bs w' Hb Ha Hq) as He.
    destruct bs as [|b rest].
    + split; [done|]. intros Hr.
      by apply (proj2 (acquire_after_ensure mc cb s false _ Hr He)).
    + split; [done|]. destruct (max_of_spec b rest) as [Hin Hmax].
      split; [done|]. split; [done|]. intros Hr.
      by rewrite (proj1 (acquire_after_ensure mc cb s true _ Hr He)).
  - apply acquire_direct.
Qed.

(** A Paper server for 1.21 whose resolver lists the builds 3, 7 and 5:
    the build becomes 7, with one query. *)
Lemma build_resolved_once_witness :
  ensure_build_selected (mk_st (paper_server "1.21" (canned [] [3; 7; 5])) fresh)
  = (Ok true,
     mk_st (with_build (paper_server "1.21" (canned [] [3; 7; 5])) (Some 7))
           (mk_world ∅ ["paper builds 1.21"])).
Proof.
  refine (proj1 (proj1 (proj2
    (@build_resolved_once Dotted.packaging plain_machine false
       (mk_st (paper_server "1.21" (canned [] [3; 7; 5])) fresh) _))
    (canned [] [3; 7; 5]) [3; 7; 5] (mk_world ∅ ["paper builds 1.21"]) _ _ _)).
  - left. reflexivity.
  - reflexivity.
  - reflexivity.
  - reflexivity.
Defined.

(** C7 as stated fails for Leaf below 1.21.4.  With no build set and a
    resolver that lists the builds 3 and 7, the acquisition of Leaf 1.20.4
    succeeds from the direct URL: the builds are never asked for and the
    build stays unset; with a resolver that lists no build it succeeds all
    the same. *)
Lemma leaf_direct_download_skips_builds :
  (let '(r, s') := @acquire Dotted.packaging plain_machine false
                     (mk_st (leaf_server "1.20.4" (canned [] [3; 7])) fresh) in
   r = Ok true
   ∧ build (self s') = None
   ∧ traffic (env s')
     = ["https://api.leafmc.one/v2/projects/leaf/versions/1.20.4/builds/latest/downloads/leaf-1.20.4.jar"])
  ∧ max_of 3 [7] = 7
  ∧ fst (@acquire Dotted.packaging plain_machine false
           (mk_st (leaf_server "1.20.4" (canned [] [])) fresh))
    = Ok true.
Proof. vm_compute. repeat split; reflexivity. Qed.

(** *** The constructor's own checks, the properties and [is_installed] *)

Lemma BaseServer_init_refuses h k version ram port dir w :
  ¬ acceptable version ram port →
  ∃ msg, BaseServer_init h k version ram port dir w
         = (Raise (mk_exn ValidationError msg), w).
Proof.
  intros Hbad. unfold BaseServer_init.
  destruct (bool_decide (PyStr.strip version = "")) eqn:Ev; [by eexists|].
  destruct ((ram <? MIN_RAM_MB) || (MAX_RAM_MB <? ram)) eqn:Er; [by eexists|].
  destruct ((port <? MIN_PORT) || (MAX_PORT <? port)) eqn:Ep; [by eexists|].
  destruct Hbad. apply bool_decide_eq_false in Ev.
  apply orb_false_iff in Er as [?%Z.ltb_ge ?%Z.ltb_ge].
  apply orb_false_iff in Ep as [?%Z.ltb_ge ?%Z.ltb_ge].
  unfold acceptable. repeat split; done.
Qed.

(** X12: the argument checks of [BaseServer.__init__] come first.  For
    each of the five server types, a blank version, a RAM allocation
    outside 512..32768 or a port outside 1024..65535 makes the
    constructor raise [ValidationError], before the install directory is
    looked at and before the version check: nothing on disk has changed
    and nothing has been requested. *)
Theorem unacceptable_arguments_are_refused mc (k : kind) (version : string)
    (ram port : Z) (dir : option path) (build : option Z)
    (forge_version : option string) (w : world) :
  ¬ acceptable version ram port →
  ∃ msg, create_server mc k version ram port dir build forge_version w
         = (Raise (mk_exn ValidationError msg), w).
Proof.
  intros Hbad.
  unfold create_server, VanillaServer, SpigotServer, PaperServer, LeafServer,
    ForgeServer.
  destruct k; msimpl;
    match goal with
    | |- context [BaseServer_init ?h ?k _ _ _ _ _] =>
        destruct (BaseServer_init_refuses h k version ram port dir w Hbad)
          as [msg ->]
    end; eauto.
Qed.

(** A Paper server with 256 MB. *)
Lemma unacceptable_arguments_are_refused_witness :
  ∃ msg, create_server plain_machine Paper "1.21" 256 25565 None None None fresh
         = (Raise (mk_exn ValidationError msg), fresh).
Proof.
  apply (unacceptable_arguments_are_refused plain_machine Paper "1.21" 256 25565
           None None None fresh).
  unfold acceptable. vm_compute. intros (_ & [H _] & _). by apply H.
Defined.

(** X13: the [install_directory] property settles once.  When it
    returns a directory, the directory is kept on the object, and every
    later read returns it without looking at the disk again; when it
    raises, the exception is never a [PathValidationError] (the
    allocator's is turned into [ServerInstallationError]). *)
Theorem install_directory_settles_once mc (s s' : st) (r : res path) :
  install_directory mc s = (r, s') →
  match r with
  | Ok d =>
      _install_directory (self s') = Some d
      ∧ ∀ mc', install_directory mc' s' = (Ok d, s')
  | Raise e => exn_cls e ≠ PathValidationError
  end.
Proof.
  unfold install_directory, get_self, set_self. msimpl.
  destruct (_install_directory (self s)) as [d0|] eqn:Ed.
  - intros [= <- <-]. split; [done|]. intros mc'. by rewrite Ed.
  - unfold in_world.
    destruct (in_dirs _ (env s)) as [[d|e] w1]; simpl.
    + intros [= <- <-]. simpl. split; [done|]. intros mc'. reflexivity.
    + destruct (catches [PathValidationError] e) eqn:Ec; intros [= <- <-]; simpl.
      * discriminate.
      * intros Hcls. destruct e as [cls msg]. simpl in Hcls. subst cls.
        discriminate.
Qed.

(** A Paper server without a directory, on an empty disk. *)
Lemma install_directory_settles_once_witness :
  let s := mk_st (mk_server Paper "1.21" 2048 25565 None None None None None None)
             fresh in
  _install_directory (self (install_directory plain_machine s).2)
  = Some ["home"; "u"; "minecraft_servers"; "paper-1.21"].
Proof.
  intros s.
  refine (proj1 (install_directory_settles_once plain_machine s
                   (install_directory plain_machine s).2
                   (Ok ["home"; "u"; "minecraft_servers"; "paper-1.21"]) _)).
  vm_compute. reflexivity.
Defined.

Lemma exists_child_has_entries (f : fs) (d : path) (n : string) :
  exists_ f (d ++ [n]) = true → has_entries f d = true.
Proof.
  unfold exists_, has_entries. rewrite PathFacts.node_at_snoc.
  intros [x Hx]%bool_decide_eq_true. apply bool_decide_eq_true.
  exists (d ++ [n]), x. split; [done|]. split.
  - by apply prefix_app_r.
  - rewrite length_app. simpl. lia.
Qed.

(** X14: [is_installed] on a server without a directory of its own.
    Reading [server_jar_path] allocates the install directory, and the
    allocator hands out a directory with nothing in it: the jar is not
    there, and [is_installed] is never [True], whatever is on disk (an
    earlier installation of the same type and version included). *)
Theorem unplaced_server_is_never_installed mc (s : st) :
  _install_directory (self s) = None →
  (is_installed mc s).1 ≠ Ok true.
Proof.
  intros Hnone. unfold is_installed, server_jar_path, path_exists. msimpl.
  destruct (install_directory mc s) as [[d|e] s1] eqn:Ei; [|done].
  simpl. unfold get_self. simpl.
  assert (Hempty : has_entries (dirs (env s1)) d = false).
  { unfold install_directory, get_self, set_self in Ei. msimpl.
    rewrite Hnone in Ei. unfold in_world, in_dirs in Ei.
    destruct (find_available_server_directory _ _ _ (dirs (env s)))
      as [[d'|e] f'] eqn:Ef; simpl in Ei.
    - injection Ei as <- <-. simpl.
      by destruct (proj2 (PathFacts.find_loop_post _ _ _ _ _ _ _ _ Ef) _ eq_refl).
    - destruct (catches [PathValidationError] e); discriminate. }
  destruct (exists_ (dirs (env s1)) (path_join d (get_jar_filename (self s1))))
    eqn:Ex; [|done].
  apply exists_child_has_entries in Ex. congruence.
Qed.

(** A complete Paper 1.21 installation in [paper-1.21], and a new server
    object for Paper 1.21: not installed. *)
Lemma unplaced_server_is_never_installed_witness :
  let installed : fs :=
    <[ ["home"; "u"; "minecraft_servers"; "paper-1.21"; "eula.txt"] := RegularFile ]>
    (<[ ["home"; "u"; "minecraft_servers"; "paper-1.21"; "start.sh"] := RegularFile ]>
    (<[ ["home"; "u"; "minecraft_servers"; "paper-1.21"; "paper-1.21-latest.jar"]
        := RegularFile ]>
    PathSpec.one_install)) in
  let s := mk_st (mk_server Paper "1.21" 2048 25565 None None None None None None)
             (mk_world installed []) in
  (is_installed plain_machine s).1 ≠ Ok true.
Proof.
  intros installed s.
  apply (unplaced_server_is_never_installed plain_machine s). reflexivity.
Defined.

Lemma fetch_versions_keeps_self mc name call (s s' : st) r :
  fetch_versions_on_loop mc name call s = (r, s') → self s' = self s.
Proof.
  unfold fetch_versions_on_loop, get_event_loop, api_method, run_until_complete,
    asyncio_run, get_self, in_world. msimpl.
  intros H.
  repeat first
    [ by injection H as _ <-
    | match type of H with
      | context [event_loop mc] => destruct (event_loop mc); simpl in H
      | context [_api (self s)] => destruct (_api (self s)); simpl in H
      | context [call ?a ?w] => destruct (call a w) as [[?|?] ?]; simpl in H
      | context [catches ?c ?e] => destruct (catches c e); simpl in H
      end ].
Qed.

(** X15: the supported versions are settled once per object.  For each
    of the five server types, once [supported_versions] has returned a
    list, every later read returns the same list and changes nothing: the
    resolver is not asked again. *)
Theorem supported_versions_settle_once mc (s s' : st) (vs : list string) :
  supported_versions mc s = (Ok vs, s') →
  ∀ mc', supported_versions mc' s' = (Ok vs, s').
Proof.
  unfold supported_versions, get_self, set_self. msimpl.
  destruct (kind_of (self s)) eqn:Ek.
  - destruct (_cached_versions (self s)) as [c|] eqn:Ec.
    + intros [= <- <-] mc'. by rewrite Ek, Ec.
    + destruct (_api (self s)) as [a|]; msimpl.
      * unfold in_world. destruct (get_vanilla_versions a (env s)) as [[l|e] w1];
          simpl; [|discriminate].
        intros [= <- <-] mc'. simpl. by rewrite Ek.
      * intros [= <- <-] mc'. simpl. by rewrite Ek.
  - destruct (_cached_versions (self s)) as [c|] eqn:Ec.
    + intros [= <- <-] mc'. by rewrite Ek, Ec.
    + destruct (fetch_versions_on_loop mc _ _ s) as [[l|e] s1] eqn:Ef;
        [|discriminate].
      apply fetch_versions_keeps_self in Ef.
      intros [= <- <-] mc'. simpl. by rewrite Ef, Ek.
  - intros [= <- <-] mc'. by rewrite Ek.
  - intros [= <- <-] mc'. by rewrite Ek.
  - destruct (_cached_versions (self s)) as [c|] eqn:Ec.
    + intros [= <- <-] mc'. by rewrite Ek, Ec.
    + destruct (fetch_versions_on_loop mc _ _ s) as [[l|e] s1] eqn:Ef;
        [|discriminate].
      apply fetch_versions_keeps_self in Ef.
      intros [= <- <-] mc'. simpl. by rewrite Ef, Ek.
Qed.

(** A Vanilla server inside its context manager: the resolver is asked
    once. *)
Lemma supported_versions_settle_once_witness :
  let s := mk_st (mk_server Vanilla "1.21" 2048 25565 None
                    (Some (canned ["1.21"] [])) None None None None) fresh in
  supported_versions plain_machine (supported_versions plain_machine s).2
  = (Ok ["1.21"], (supported_versions plain_machine s).2).
Proof.
  intros s.
  apply (supported_versions_settle_once plain_machine s
           (supported_versions plain_machine s).2 ["1.21"]).
  reflexivity.
Defined.

(** X16: the acquisition of [VanillaServer].  It never raises.  Outside
    the context manager ([_api] is [None]) it returns [False] and nothing
    changes; so does [PaperServer]'s.  When the resolver has no URL for
    the version ([None] or an empty string) it returns [False] after the
    resolver's call and the download manager is not used. *)
Theorem vanilla_acquisition_needs_a_url mc (cb : bool) (s : st) :
  (∃ r s', Vanilla_download_server_jar mc cb s = (Ok r, s'))
  ∧ (_api (self s) = None →
     Vanilla_download_server_jar mc cb s = (Ok false, s)
     ∧ Paper_download_server_jar mc cb s = (Ok false, s))
  ∧ (∀ a url w',
       _api (self s) = Some a →
       get_server_jar_url a (version (self s)) (env s) = (Ok url, w') →
       url = None ∨ url = Some "" →
       Vanilla_download_server_jar mc cb s = (Ok false, mk_st (self s) w')).
Proof.
  split; [apply ApiFacts.try_catch_all_returns|]. split.
  - intros Hapi. split.
    + unfold Vanilla_download_server_jar, get_self. msimpl. by rewrite Hapi.
    + unfold Paper_download_server_jar, ensure_build_selected, get_latest_build,
        get_available_builds, api_method, get_self. msimpl.
      destruct (build (self s)); msimpl; by rewrite Hapi.
  - intros a url w' Hapi Hurl Hnone.
    unfold Vanilla_download_server_jar, get_self, in_world. msimpl.
    rewrite Hapi. msimpl. rewrite Hurl. simpl.
    by destruct Hnone as [-> | ->].
Qed.

(** *** The name of the jar *)

Lemma pretty_N_char_digit (x : N) : PyStr.is_digit (pretty_N_char x) = true.
Proof. unfold pretty_N_char. by repeat case_match. Qed.

Lemma pretty_N_go_head (x : N) : ∀ s,
  x ≠ 0%N ∨ starts_with_digit s → starts_with_digit (pretty_N_go x s).
Proof.
  induction (N.lt_wf_0 x) as [x _ IH]. intros s Hs.
  destruct (decide (0 < x)%N) as [Hx|Hx].
  - rewrite pretty_N_go_step by done. apply IH.
    + by apply N.div_lt.
    + right. simpl. apply pretty_N_char_digit.
  - assert (x = 0%N) as -> by lia. rewrite pretty_N_go_0.
    by destruct Hs.
Qed.

Lemma pretty_N_head (x : N) : starts_with_digit (pretty x).
Proof.
  unfold pretty, pretty_N. destruct (decide (x = 0%N)); [done|].
  apply pretty_N_go_head. by left.
Qed.

(** A number never prints as the word "latest". *)
Lemma pretty_Z_not_latest (b : Z) (rest rest' : string) :
  pretty b +:+ rest ≠ String "l" rest'.
Proof.
  assert (H : starts_with_digit (pretty b) ∨ ∃ t, pretty b = String "-" t).
  { destruct b as [|p|p].
    - by left.
    - left. apply (pretty_N_head (N.pos p)).
    - right. by eexists. }
  destruct (pretty b) as [|c t].
  - by destruct H as [H|[t' H]].
  - rewrite PathFacts.string_app_cons. intros [= -> _].
    destruct H as [H|[t' H]]; discriminate.
Qed.

Lemma string_app_inv_head (a x y : string) : a +:+ x = a +:+ y → x = y.
Proof.
  induction a as [|c a IH]; [done|].
  rewrite !PathFacts.string_app_cons. intros [= H]. by apply IH.
Qed.

(** X23: choosing a build renames the jar.  For Paper and Leaf the jar
    is called [{type}-{version}-latest.jar] while no build is set (or the
    build is 0) and [{type}-{version}-{build}.jar] once one is: after
    [ensure_build_selected] has chosen a build other than 0, the file
    that the download writes, and that the start script names, is not the
    file that [server_jar_path] and [is_installed] looked for on the same
    object before, nor the one they look for on a new object without a
    build.  The other three types do not use the build in the name. *)
Theorem build_selection_renames_the_jar (o : server) (b : Z) :
  (build_kind (kind_of o) → build o = None ∨ build o = Some 0 → b ≠ 0 →
   get_jar_filename (with_build o (Some b)) ≠ get_jar_filename o)
  ∧ (static_kind (kind_of o) →
     get_jar_filename (with_build o (Some b)) = get_jar_filename o).
Proof.
  split.
  - intros Hk Hb Hnz. unfold get_jar_filename, build_jar_filename. simpl.
    apply Z.eqb_neq in Hnz. rewrite Hnz.
    assert (Hname : ∀ project,
      project +:+ "-" +:+ version o +:+ "-" +:+ pretty b +:+ ".jar"
      ≠ project +:+ "-" +:+ version o +:+ "-latest.jar").
    { intros project E.
      do 3 apply string_app_inv_head in E.
      change "-latest.jar" with ("-" +:+ "latest.jar") in E.
      apply string_app_inv_head in E.
      by apply pretty_Z_not_latest in E. }
    destruct Hk as [-> | ->], Hb as [-> | ->]; simpl; apply Hname.
  - intros [Hk|[Hk|Hk]]; unfold get_jar_filename; simpl; by rewrite Hk.
Qed.

End ServerFacts.

(** * Facts about the installation pipeline *)

Module PipelineFacts.
Import Paths Pipeline PipelineSpec.

(** The message names the step. *)
Lemma wrapped_names_step name cause :
  String.prefix (failure_message name) (wrapped name cause) = true.
Proof.
  unfold failure_message, wrapped.
  replace ("Installation failed at step '" +:+ name +:+ "': " +:+ cause)
    with (("Installation failed at step '" +:+ name +:+ "'") +:+ ": " +:+ cause).
  - apply PathFacts.string_prefix_app.
  - by rewrite !PathFacts.string_app_assoc.
Qed.

Section Steps.
Context {W : Type}.
Implicit Types (w : W) (log : list (level * string)) (step : M W bool).

Lemma run_step_passes name step w w' log :
  step w = (Ok true, w') →
  run_step name step (w, log) = (Ok (), (w', log ++ passed name)).
Proof.
  intros Hs. unfold run_step, run, logger. msimpl. rewrite Hs. simpl.
  by rewrite <- app_assoc.
Qed.

Lemma run_step_refused name step w w' log :
  step w = (Ok false, w') →
  run_step name step (w, log)
  = (Raise (mk_exn ServerInstallationError (wrapped name (failure_message name))),
     (w', log ++ [started name; (ERROR, failure_message name);
                  (ERROR, wrapped name (failure_message name))])).
Proof.
  intros Hs. unfold run_step, run, logger. msimpl. rewrite Hs. simpl.
  by rewrite <- !app_assoc.
Qed.

Lemma run_step_raised name step w w' log e :
  step w = (Raise e, w') →
  run_step name step (w, log)
  = (Raise (mk_exn ServerInstallationError (wrapped name (str_exn e))),
     (w', log ++ [started name; (ERROR, wrapped name (str_exn e))])).
Proof.
  intros Hs. unfold run_step, run, logger. msimpl. rewrite Hs. simpl.
  by rewrite <- !app_assoc.
Qed.

(** The steps that pass are run through, and the loop goes on with the
    rest. *)
Lemma run_steps_through : ∀ (past : list (string * M W bool)) rest w w' log,
  all_succeed (map snd past) w w' →
  run_steps (past ++ rest) (w, log)
  = run_steps rest (w', log ++ concat (map passed (map fst past))).
Proof.
  induction past as [|[name step] past IH]; intros rest w w' log Hall.
  - simpl in *. subst. by rewrite app_nil_r.
  - destruct Hall as (w1 & Hstep & Hall). simpl.
    unfold mbind at 1, M_bind at 1.
    rewrite (run_step_passes _ _ _ _ _ Hstep).
    rewrite (IH _ _ _ _ Hall). by rewrite <- !app_assoc.
Qed.

End Steps.

(** The pipeline up to its loop. *)
Lemma install_unfold {W} (m : methods W) cb w0 w1 log0 dir :
  install_directory m w0 = (Ok dir, w1) →
  install m cb (w0, log0) =
    match run_steps (install_steps m cb) (w1, log0 ++ [announced m dir]) with
    | (Ok _, (w, log)) => (Ok true, (w, log ++ [finished m]))
    | (Raise e, s) =>
        Http.dispatch e
          [ ([ServerInstallationError], λ e, lift_res (Raise e));
            ([Exception],
             λ e,
               let error_msg :=
                 "Unexpected error during server installation: " +:+ str_exn e in
               _ ← logger ERROR error_msg;
               throw ServerInstallationError error_msg) ] s
    end.
Proof.
  intros Hdir. unfold install. generalize (install_steps m cb). intros steps.
  unfold Http.try_clauses, run, logger. msimpl. rewrite Hdir. simpl.
  by destruct (run_steps steps _) as [[[]|e] [w log]].
Qed.

(** C8: the installation pipeline.  The steps are the five of the fixed
    sequence, in its order.  When all return [True], [install] returns
    [True] and each step was started and completed in turn.  When the
    steps before one return [True] and that one returns [False] or
    raises, [install] raises [ServerInstallationError] with a message that
    names the step and carries the cause; the steps after it are not
    started, and the state is the one that the failing step left, with
    what the earlier steps did still in it. *)
Theorem pipeline_runs_in_order {W} (m : methods W) (cb : bool)
    (w0 w1 : W) (log0 : list (level * string)) (dir : path) :
  install_directory m w0 = (Ok dir, w1) →
  let steps := install_steps m cb in
  let log1 := log0 ++ [announced m dir] in
  map fst steps = step_names
  ∧ (∀ w5, all_succeed (map snd steps) w1 w5 →
       install m cb (w0, log0)
       = (Ok true, (w5, log1 ++ concat (map passed step_names) ++ [finished m])))
  ∧ (∀ past name step later w2 w3 cause,
       steps = past ++ (name, step) :: later →
       all_succeed (map snd past) w1 w2 →
       (step w2 = (Ok false, w3) ∧ cause = failure_message name)
       ∨ (∃ e, step w2 = (Raise e, w3) ∧ cause = str_exn e) →
       ∃ trail,
         install m cb (w0, log0)
         = (Raise (mk_exn ServerInstallationError (wrapped name cause)),
            (w3, log1 ++ concat (map passed (map fst past))
                   ++ started name :: trail))
         ∧ String.prefix (failure_message name) (wrapped name cause) = true
         ∧ Forall (λ entry, entry.1 = ERROR) trail).
Proof.
  intros Hdir steps log1. split; [reflexivity|]. split.
  - intros w5 Hall. rewrite (install_unfold m cb w0 w1 log0 dir Hdir).
    fold steps. rewrite <- (app_nil_r steps).
    rewrite (run_steps_through steps [] w1 w5 _ Hall). simpl.
    subst log1. by rewrite <- app_assoc.
  - intros past name step later w2 w3 cause Hsplit Hall Hfail.
    rewrite (install_unfold m cb w0 w1 log0 dir Hdir).
    fold steps. rewrite Hsplit.
    rewrite (run_steps_through past _ w1 w2 _ Hall). simpl.
    unfold mbind at 1, M_bind at 1.
    destruct Hfail as [[Hstep ->]|(e & Hstep & ->)].
    + rewrite (run_step_refused _ _ _ _ _ Hstep).
      exists [(ERROR, failure_message name);
              (ERROR, wrapped name (failure_message name))].
      split; [|split].
      * subst log1. by rewrite <- !app_assoc.
      * apply wrapped_names_step.
      * by repeat constructor.
    + rewrite (run_step_raised _ _ _ _ _ _ Hstep).
      exists [(ERROR, wrapped name (str_exn e))].
      split; [|split].
      * subst log1. by rewrite <- !app_assoc.
      * apply wrapped_names_step.
      * by repeat constructor.
Qed.

(** The server whose start script cannot be written: Java, the jar and
    the properties are done and stay done, the EULA is never written, and
    the error names the step. *)
Lemma pipeline_runs_in_order_witness :
  ∃ trail,
    install journalling false ([], [])
    = (Raise (mk_exn ServerInstallationError
                (wrapped "Start script creation"
                   (failure_message "Start script creation"))),
       (["java"; "jar"; "properties"; "script"],
        [announced journalling ["srv"]]
        ++ concat (map passed ["Java installation"; "Server jar download";
                               "Server properties creation"])
        ++ started "Start script creation" :: trail))
    ∧ String.prefix (failure_message "Start script creation")
        (wrapped "Start script creation"
           (failure_message "Start script creation")) = true
    ∧ Forall (λ entry, entry.1 = ERROR) trail.
Proof.
  refine (proj2 (proj2 (pipeline_runs_in_order journalling false [] [] [] ["srv"] _))
    (take 3 (install_steps journalling false)) "Start script creation"
    (_create_script_step journalling)
    (drop 4 (install_steps journalling false))
    ["java"; "jar"; "properties"] ["java"; "jar"; "properties"; "script"]
    (failure_message "Start script creation") _ _ _).
  - reflexivity.
  - reflexivity.
  - simpl. eexists; split; [reflexivity|].
    eexists; split; [reflexivity|].
    eexists; split; [reflexivity|]. reflexivity.
  - left. split; reflexivity.
Defined.

(** *** What [install] can answer *)

Lemma only_installation_error (c : exn_class) :
  is_subclass c ServerInstallationError = true → c = ServerInstallationError.
Proof. destruct c; vm_compute; congruence. Qed.

(** X17: the answers of [install].  It never returns [False]: the result
    is [True] or an exception, and the exception is always a
    [ServerInstallationError], whatever the steps and the
    [install_directory] property raise.  An exception of
    [install_directory] that is not a [ServerInstallationError] is
    logged and reported as "Unexpected error during server installation"
    with its message, and no step is started. *)
Theorem install_raises_only_installation_errors {W} (m : methods W) (cb : bool)
    (s : W * list (level * string)) :
  match (install m cb s).1 with
  | Ok b => b = true
  | Raise e => exn_cls e = ServerInstallationError
  end
  ∧ ∀ e w1,
      install_directory m s.1 = (Raise e, w1) →
      exn_cls e ≠ ServerInstallationError →
      let error_msg :=
        "Unexpected error during server installation: " +:+ str_exn e in
      install m cb s
      = (Raise (mk_exn ServerInstallationError error_msg),
         (w1, s.2 ++ [(ERROR, error_msg)])).
Proof.
  split.
  - unfold install. generalize (install_steps m cb). intros steps.
    unfold Http.try_clauses.
    match goal with
    | |- context [match ?body s with _ => _ end] =>
        destruct (body s) as [[b|e] s1] eqn:Hbody
    end.
    + simpl. unfold run, logger in Hbody. msimpl.
      destruct (install_directory m s.1) as [[d|e] w1]; [|discriminate].
      simpl in Hbody.
      destruct (run_steps steps _) as [[[]|e] [w log]]; [|discriminate].
      by injection Hbody as <- _.
    + simpl. destruct (catches [ServerInstallationError] e) eqn:Ec.
      * simpl. apply only_installation_error.
        unfold catches in Ec. simpl in Ec. by rewrite orb_false_r in Ec.
      * replace (catches [Exception] e) with true by by destruct e as [[] ?].
        reflexivity.
  - intros e w1 Hdir Hcls error_msg. unfold install.
    generalize (install_steps m cb). intros steps.
    unfold Http.try_clauses, run, logger. msimpl. rewrite Hdir. simpl.
    destruct (catches [ServerInstallationError] e) eqn:Ec.
    + destruct Hcls. apply only_installation_error.
      unfold catches in Ec. simpl in Ec. by rewrite orb_false_r in Ec.
    + replace (catches [Exception] e) with true by by destruct e as [[] ?].
      reflexivity.
Qed.

End PipelineFacts.

(** * Facts about the checks of the command line *)

Module ValidationFacts.
Import Paths Constants Validation ValidationSpec.











Lemma render_single_prefix (c : string) (rest : path) :
  String.prefix ("/" +:+ c) (str_path ([c] ++ rest)) = true.
Proof.
  change (str_path ([c] ++ rest)) with (render ([c] ++ rest)).
  rewrite PathFacts.render_app.
  change (render [c]) with ("/" +:+ c +:+ "").
  replace ("/" +:+ c +:+ "") with ("/" +:+ c).
  - apply PathFacts.string_prefix_app.
  - rewrite <- (PathFacts.string_app_assoc "/" c "").
    induction ("/" +:+ c) as [|x t IH]; [done|].
    rewrite PathFacts.string_app_cons. by rewrite <- IH.
Qed.

(** X19: a custom directory inside a system directory is refused.  A
    path that [validate_server_directory] returns is the resolved path of
    its argument, and it is not [/etc], [/usr], [/var], [/boot], [/sys],
    [/proc] or [/dev], nor anything below one of them. *)
Theorem system_directories_are_refused (h : host) (directory p : path) :
  validate_server_directory h directory = Ok p →
  resolve h directory = Ok p
  ∧ ∀ root, root ∈ system_directories → ¬ within root p.
Proof.
  unfold validate_server_directory, mbind, res_bind, try_except.
  destruct (resolve h directory) as [q|e]; cbv beta iota.
  - destruct (existsb _ FORBIDDEN_SYSTEM_PATHS) eqn:Ex; [discriminate|].
    intros [= <-]. split; [done|].
    intros root Hroot [rest ->].
    assert (Hnot : ∀ forbidden, forbidden ∈ FORBIDDEN_SYSTEM_PATHS →
              String.prefix forbidden (str_path (root ++ rest)) = false).
    { intros forbidden Hin. apply not_true_is_false. intros Hp.
      assert (Hex : existsb
                (λ forbidden_path,
                   PyStr.startswith (str_path (root ++ rest)) forbidden_path)
                FORBIDDEN_SYSTEM_PATHS = true).
      { apply existsb_exists. exists forbidden. split; [|exact Hp].
        by apply list_elem_of_In. }
      congruence. }
    unfold system_directories in Hroot.
    rewrite !elem_of_cons, elem_of_nil in Hroot.
    destruct Hroot as [->|[->|[->|[->|[->|[->|[->|[]]]]]]]];
      match type of Hnot with
      | context [[?c] ++ rest] =>
          specialize (Hnot ("/" +:+ c));
          rewrite render_single_prefix in Hnot;
          (assert (true = false) as Habs; [|discriminate Habs]);
          apply Hnot; unfold FORBIDDEN_SYSTEM_PATHS;
          rewrite !elem_of_cons; auto 10
      end.
  - destruct (catches [Exception] e); discriminate.
Qed.

(** A directory of the user, and of the system. *)
Lemma system_directories_are_refused_witness :
  ¬ within ["etc"] ["home"; "u"; "mc"].
Proof.
  refine (proj2 (system_directories_are_refused PathSpec.plain_host
                   ["home"; "u"; "mc"] ["home"; "u"; "mc"] eq_refl) ["etc"] _).
  unfold system_directories. rewrite elem_of_cons. by left.
Defined.

End ValidationFacts.

(** * Facts about the detection of Java installations *)

Module JavaFacts.
Import Java.

Lemma lower_upper_char (c : ascii) :
  PyStr.lower_char (PyStr.upper_char c) = PyStr.lower_char c.
Proof. by destruct c as [[] [] [] [] [] [] [] []]. Qed.

Lemma lower_upper (s : string) : PyStr.lower (PyStr.upper s) = PyStr.lower s.
Proof.
  unfold PyStr.lower, PyStr.upper. rewrite PathFacts.chars_of_chars.
  f_equal. rewrite <- list_fmap_compose. apply list_fmap_ext.
  intros _ c _. apply lower_upper_char.
Qed.

(** X20: the version read off the name of a Java directory.  Whatever
    the name, a version that [_parse_version_from_path] returns is one of
    the keys of [JAVA_VERSIONS] (8, 11, 17 or 21), so
    [is_java_version_supported] accepts it, and it is not zero, so the
    caller's truth test keeps it; and the answer does not depend on the
    case of the letters in the name. *)
Theorem detected_java_version_is_supported (path : string) :
  (∀ v, _parse_version_from_path path = Some v →
        is_java_version_supported v = true ∧ v ≠ 0)
  ∧ _parse_version_from_path (PyStr.upper path) = _parse_version_from_path path.
Proof.
  split.
  - unfold _parse_version_from_path, version_patterns. simpl.
    intros v Hv. repeat case_match; try discriminate;
      injection Hv as <-; split; (reflexivity || discriminate).
  - unfold _parse_version_from_path. by rewrite lower_upper.
Qed.

End JavaFacts.
